(** * The WebApp controller of pepr-with-argo: admission gate and reconciler

  A shallow embedding of [capabilities/index.ts]: the admission callbacks
  of the WebApp resource, the pod security policy, and the Reconcile
  callback with its helpers [updateStatus] and [getConditions]. *)

From Stdlib Require Import ZArith String List Bool Lia.
From stdpp Require Import base option list strings gmap.
Import ListNotations.

Local Open Scope string_scope.
Local Open Scope list_scope.
Local Open Scope Z_scope.

(** ** JavaScript values the callbacks depend on *)

Module JS.

(** What a callback can raise: a [TypeError] for a property read on
    [undefined], or the rejection of an awaited external call. *)
Inductive Exn : Type :=
| TypeError (reading : string)
| Rejected (call : string).

Inductive Completion (A : Type) : Type :=
| Normal (a : A)
| Throw (e : Exn).
Arguments Normal {A} a.
Arguments Throw {A} e.

Definition bind {A B} (c : Completion A) (k : A -> Completion B) : Completion B :=
  match c with
  | Normal a => k a
  | Throw e => Throw e
  end.

(** [x === undefined] *)
Definition isUndefined {A} (x : option A) : bool :=
  match x with None => true | Some _ => false end.

(** Truthiness of a value of type [boolean | undefined]. *)
Definition truthy (x : option bool) : bool :=
  match x with Some b => b | None => false end.

(** [!x] *)
Definition not (x : option bool) : bool := negb (truthy x).

(** [x ?? d] *)
Definition nullish {A} (x : option A) (d : A) : A :=
  match x with Some a => a | None => d end.

(** [a || b] with a boolean on the left: the left operand if it is
    truthy, the right operand (possibly [undefined]) otherwise. *)
Definition or (a : bool) (b : option bool) : option bool :=
  if a then Some true else b.

(** [arr[i]]: [undefined] outside of [0 .. length - 1], negative
    indices included. *)
Definition index {A} (arr : list A) (i : Z) : option A :=
  if i <? 0 then None else arr !! Z.to_nat i.

(** [arr.length] *)
Definition length {A} (arr : list A) : Z := Z.of_nat (List.length arr).

(** [arr.includes(s)] on an array of strings. *)
Definition includes (arr : list string) (s : string) : bool :=
  existsb (String.eqb s) arr.

(** [a === b] on values of type [number | undefined]. *)
Definition strictEq (a b : option Z) : bool :=
  match a, b with
  | None, None => true
  | Some x, Some y => x =? y
  | _, _ => false
  end.

(** [arr.filter(p)] with a callback that may throw: elements are visited
    in order and the first exception aborts the call. *)
Fixpoint filter {A} (p : A -> Completion bool) (arr : list A) : Completion (list A) :=
  match arr with
  | [] => Normal []
  | x :: rest =>
      bind (p x) (fun keep =>
      bind (filter p rest) (fun kept =>
      Normal (if keep then x :: kept else kept)))
  end.

End JS.

(** ** Admission responses (Pepr's [Approve] and [Deny]) *)

Inductive Response : Type :=
| Approve
| Deny (statusMessage : string) (statusCode : Z) (warnings : option (list string)).

(** ** The pod security policy: [When(a.Pod).IsCreatedOrUpdated()] *)

Module PodGate.

Record Capabilities : Type := {
  add : option (list string);
  drop : option (list string)
}.

Record SecurityContext : Type := {
  allowPrivilegeEscalation : option bool;
  privileged : option bool;
  capabilities : option Capabilities;
  runAsNonRoot : option bool
}.

Record Container : Type := {
  name : string;
  image : string;
  securityContext : option SecurityContext
}.

(** A pod admission request.  Pepr's helper [sdk.containers] hands out
    the container objects of the pod by reference; the request is the
    sequence it enumerates, and assigning to a field of an element is an
    update of that element in place. *)
Record PodRequest : Type := { Raw : list Container }.

Definition containers (request : PodRequest) : list Container := Raw request.

(** The object literal [{}] *)
Definition emptySecurityContext : SecurityContext :=
  {| allowPrivilegeEscalation := None; privileged := None;
     capabilities := None; runAsNonRoot := None |}.

(** [capabilities?.add?.includes("CAP_SYS_ADMIN")] *)
Definition addsSysAdmin (sc : SecurityContext) : option bool :=
  match capabilities sc with
  | None => None
  | Some caps =>
      match add caps with
      | None => None
      | Some l => Some (JS.includes l "CAP_SYS_ADMIN")
      end
  end.

Definition mutateCriteria (sc : SecurityContext) : list bool :=
  [ JS.isUndefined (allowPrivilegeEscalation sc);
    JS.not (privileged sc);
    JS.not (addsSysAdmin sc) ].

(** [securityContext.allowPrivilegeEscalation = false] *)
Definition setAllowPrivilegeEscalation (v : bool) (sc : SecurityContext) : SecurityContext :=
  {| allowPrivilegeEscalation := Some v; privileged := privileged sc;
     capabilities := capabilities sc; runAsNonRoot := runAsNonRoot sc |}.

(** The body of the [for] loop of the Mutate callback. *)
Definition mutateContainer (container : Container) : Container :=
  let sc := JS.nullish (securityContext container) emptySecurityContext in
  let sc' :=
    if forallb (fun priv => Bool.eqb priv true) (mutateCriteria sc)
    then setAllowPrivilegeEscalation false sc
    else sc in
  {| name := name container; image := image container; securityContext := Some sc' |}.

Definition Mutate (request : PodRequest) : PodRequest :=
  {| Raw := map mutateContainer (containers request) |}.

(** The arrow function given to [filter] in the Validate callback; the
    property reads on [c.securityContext] throw when it is [undefined]. *)
Definition isViolation (c : Container) : JS.Completion bool :=
  match securityContext c with
  | None => JS.Throw (JS.TypeError "allowPrivilegeEscalation")
  | Some sc =>
      JS.Normal (JS.truthy
        (JS.or (JS.nullish (allowPrivilegeEscalation sc) true) (privileged sc)))
  end.

Definition Validate (request : PodRequest) : JS.Completion Response :=
  JS.bind (JS.filter isViolation (containers request)) (fun violations =>
  if negb (JS.length violations =? 0)
  then JS.Normal (Deny "Privilege escalation is disallowed" 403 None)
  else JS.Normal Approve).

(** *** The policy as the specification words it *)

(** The fields of a container as a reader of the pod sees them: unset
    when there is no security context at all. *)
Definition apeOf (c : Container) : option bool :=
  match securityContext c with
  | None => None
  | Some sc => allowPrivilegeEscalation sc
  end.

Definition privilegedOf (c : Container) : option bool :=
  match securityContext c with
  | None => None
  | Some sc => privileged sc
  end.

(** The added capability set includes the raised-privilege capability. *)
Definition raisesCapability (c : Container) : bool :=
  match securityContext c with
  | None => false
  | Some sc => JS.truthy (addsSysAdmin sc)
  end.

(** allowPrivilegeEscalation is unset and privileged is falsy and the
    capability is not added. *)
Definition meetsCriteria (c : Container) : bool :=
  JS.isUndefined (apeOf c) && negb (JS.truthy (privilegedOf c)) && negb (raisesCapability c).

(** The container with allowPrivilegeEscalation set to false and nothing
    else changed. *)
Definition defaulted (c : Container) : Container :=
  {| name := name c; image := image c;
     securityContext :=
       Some (setAllowPrivilegeEscalation false
               (JS.nullish (securityContext c) emptySecurityContext)) |}.

(** allowPrivilegeEscalation = false ∨ privileged = true ∨ capability-raise present *)
Definition escalationClosed (c : Container) : Prop :=
  apeOf c = Some false \/ privilegedOf c = Some true \/ raisesCapability c = true.

(** The same with the explicit request for escalation let through:
    allowPrivilegeEscalation is set (to either value) ∨ privileged = true
    ∨ capability-raise present. *)
Definition escalationDecided (c : Container) : Prop :=
  apeOf c <> None \/ privilegedOf c = Some true \/ raisesCapability c = true.

(** allowPrivilegeEscalation true or unset, or privileged true. *)
Definition violatesPolicy (c : Container) : bool :=
  JS.nullish (apeOf c) true || JS.truthy (privilegedOf c).

(** What a request must say about a container for the mutated pod to be
    approved: privileged falsy, and allowPrivilegeEscalation false, or
    unset without the raised capability. *)
Definition admissible (c : Container) : bool :=
  negb (JS.truthy (privilegedOf c))
  && match apeOf c with
     | Some b => negb b
     | None => negb (raisesCapability c)
     end.

Definition denial : Response := Deny "Privilege escalation is disallowed" 403 None.

End PodGate.

(** ** The WebApp resource ([generated/webapp-v1alpha1]) *)

(** [new Date()]: milliseconds since the epoch. *)
Definition Date : Type := Z.

Module Condition.
(** A field that the object does not carry reads as [undefined]; the
    reconciler pushes conditions whose [observedGeneration] may be
    [undefined] and falls back on an object with only [status] and
    [reason]. *)
Record t : Type := {
  observedGeneration : option Z;
  lastTransitionTime : option Date;
  reason : string;
  status : string
}.
End Condition.

Module Status.
Record t : Type := { conditions : option (list Condition.t) }.
End Status.

Module Spec.
(** [replicas] is integer valued (the resource's data model). *)
Record t : Type := { language : string; replicas : Z; theme : string }.
End Spec.

Module Meta.
(** The metadata of an object delivered by the API server: always there,
    with a name and a namespace; [generation] is read through
    [metadata?.generation] and may be [undefined]. *)
Record t : Type := {
  name : string;
  namespace : string;
  generation : option Z;
  annotations : gmap string string
}.
End Meta.

Module WebApp.
(** The resource definition requires the three fields of a spec but not
    the spec itself, so a request may come without one. *)
Record t : Type := {
  metadata : Meta.t;
  spec : option Spec.t;
  status : option Status.t
}.
End WebApp.

(** ** The admission callbacks of the WebApp: [When(WebApp).IsCreatedOrUpdated()] *)

Module WebAppGate.

(** [wa.Raw.status?.conditions || []] *)
Definition conditionsOf (wa : WebApp.t) : list Condition.t :=
  match WebApp.status wa with
  | None => []
  | Some st => JS.nullish (Status.conditions st) []
  end.

(** [conditions[conditions.length - 1]?.status === "Pending"] *)
Definition isPending (wa : WebApp.t) : bool :=
  let conditions := conditionsOf wa in
  match JS.index conditions (JS.length conditions - 1) with
  | None => false
  | Some c => String.eqb (Condition.status c) "Pending"
  end.

(** Pepr's [wa.SetAnnotation(key, value)] *)
Definition SetAnnotation (key value : string) (wa : WebApp.t) : WebApp.t :=
  let m := WebApp.metadata wa in
  {| WebApp.metadata :=
       {| Meta.name := Meta.name m; Meta.namespace := Meta.namespace m;
          Meta.generation := Meta.generation m;
          Meta.annotations := <[key := value]> (Meta.annotations m) |};
     WebApp.spec := WebApp.spec wa;
     WebApp.status := WebApp.status wa |}.

(** The Mutate callback; [nowISO] is [new Date().toISOString()] at the
    time of the call.  The result is the request object [wa.Raw] as the
    callback leaves it. *)
Definition Mutate (nowISO : string) (wa : WebApp.t) : WebApp.t :=
  if isPending wa then wa
  else SetAnnotation "pepr.dev/latest-admission-pass" nowISO wa.

(** [warnings.push(w)] when [violated]. *)
Definition pushIf (violated : bool) (w : string) (warnings : list string) : list string :=
  if violated then warnings ++ [w] else warnings.

(** The Validate callback.  [const { language, replicas, theme } = wa.Raw.spec]
    raises a TypeError when the request has no spec. *)
Definition Validate (wa : WebApp.t) : JS.Completion Response :=
  if isPending wa then JS.Normal Approve
  else
    match WebApp.spec wa with
    | None => JS.Throw (JS.TypeError "language")
    | Some spec =>
        let language := Spec.language spec in
        let replicas := Spec.replicas spec in
        let theme := Spec.theme spec in
        let warnings := [] in
        let warnings :=
          pushIf (negb (JS.includes ["english"; "spanish"] language))
            "language must be either 'english' or 'spanish'" warnings in
        let warnings :=
          pushIf (replicas <? 1) "replicas must be greater than 0" warnings in
        let warnings :=
          pushIf (negb (JS.includes ["dark"; "light"] theme))
            "theme must be either 'dark' or 'light'" warnings in
        if JS.length warnings >? 0
        then JS.Normal (Deny "Spec field is incorrect" 422 (Some warnings))
        else JS.Normal Approve
    end.

(** *** The validation rules as the specification words them *)

Inductive Rule : Type := LanguageRule | ReplicasRule | ThemeRule.

Definition rules : list Rule := [LanguageRule; ReplicasRule; ThemeRule].

(** language ∈ {english, spanish}, replicas ≥ 1, theme ∈ {dark, light} *)
Definition holds (r : Rule) (s : Spec.t) : Prop :=
  match r with
  | LanguageRule => Spec.language s = "english" \/ Spec.language s = "spanish"
  | ReplicasRule => Spec.replicas s >= 1
  | ThemeRule => Spec.theme s = "dark" \/ Spec.theme s = "light"
  end.

Definition holdsb (r : Rule) (s : Spec.t) : bool :=
  match r with
  | LanguageRule =>
      String.eqb (Spec.language s) "english" || String.eqb (Spec.language s) "spanish"
  | ReplicasRule => Spec.replicas s >=? 1
  | ThemeRule =>
      String.eqb (Spec.theme s) "dark" || String.eqb (Spec.theme s) "light"
  end.

Definition message (r : Rule) : string :=
  match r with
  | LanguageRule => "language must be either 'english' or 'spanish'"
  | ReplicasRule => "replicas must be greater than 0"
  | ThemeRule => "theme must be either 'dark' or 'light'"
  end.

(** The ledger has a last Condition and its status is Pending. *)
Definition lastConditionPending (wa : WebApp.t) : Prop :=
exists cs c,
  WebApp.status wa = Some {| Status.conditions := Some cs |}
  /\ last cs = Some c
  /\ Condition.status c = "Pending".

(** The violated rules, in the order of the rules. *)
Definition violatedRules (s : Spec.t) : list Rule :=
  List.filter (fun r => negb (holdsb r s)) rules.

End WebAppGate.

(** ** The Reconcile callback, [updateStatus] and [getConditions] *)

Module Reconciler.

(** Calls that leave the callback, in the order they are issued.  The
    boolean of an awaited call tells whether it resolved. *)
Inductive Effect : Type :=
| LogDebug (msg : string)
| LogError (msg : string)
| PatchStatus (name namespace : string) (status : option Status.t) (resolved : bool)
| DeployCall (resolved : bool)
| WriteEvent (message eventType eventReason reportingComponent reportingInstance : string)
    (resolved : bool).

(** What the callback cannot decide: the clock and the outcome of each
    awaited call ([Deploy] comes from [controller/generators],
    [PatchStatus] and [writeEvent] from the cluster API), indexed by the
    number of calls of that kind made before. *)
Record Env : Type := {
  now : nat -> Date;
  patchStatusOk : nat -> bool;
  writeEventOk : nat -> bool;
  deployOk : bool
}.

(** The objects the callback reads and writes: the [instance] it was
    given, which it mutates when [conditions] is the very array
    [instance.status.conditions]; the array allocated by [|| []] in
    [getConditions] otherwise; and the counters of the environment. *)
Record State : Type := {
  instance : WebApp.t;
  fresh : list Condition.t;
  effects : list Effect;
  dateReads : nat;
  patchCalls : nat;
  eventCalls : nat
}.

Definition initial (i : WebApp.t) : State :=
  {| instance := i; fresh := []; effects := [];
     dateReads := 0; patchCalls := 0; eventCalls := 0 |}.

(** The two arrays the variable [conditions] can be bound to. *)
Inductive ArrayRef : Type := StatusConditions | FreshArray.

Definition M (A : Type) : Type := State -> JS.Completion A * State.

Definition ret {A} (a : A) : M A := fun s => (JS.Normal a, s).

Definition throw {A} (e : JS.Exn) : M A := fun s => (JS.Throw e, s).

Definition bind {A B} (m : M A) (k : A -> M B) : M B :=
  fun s =>
    match m s with
    | (JS.Normal a, s') => k a s'
    | (JS.Throw e, s') => (JS.Throw e, s')
    end.

(** [try { body } catch (err) { handler }] *)
Definition tryCatch {A} (body : M A) (handler : JS.Exn -> M A) : M A :=
  fun s =>
    match body s with
    | (JS.Normal a, s') => (JS.Normal a, s')
    | (JS.Throw e, s') => handler e s'
    end.

Definition lift {A} (c : JS.Completion A) : M A := fun s => (c, s).

Declare Scope reconcile_scope.
Delimit Scope reconcile_scope with reconcile.
Notation "x <- m ;; k" := (bind m (fun x => k))
  (at level 100, m at next level, right associativity) : reconcile_scope.
Notation "m ;; k" := (bind m (fun _ => k))
  (at level 100, right associativity) : reconcile_scope.
Local Open Scope reconcile_scope.

Definition readInstance : M WebApp.t := fun s => (JS.Normal (instance s), s).

Definition emit (e : Effect) : M unit :=
  fun s =>
    (JS.Normal tt,
     {| instance := instance s; fresh := fresh s; effects := effects s ++ [e];
        dateReads := dateReads s; patchCalls := patchCalls s;
        eventCalls := eventCalls s |}).

(** [new Date()] *)
Definition newDate (env : Env) : M Date :=
  fun s =>
    (JS.Normal (now env (dateReads s)),
     {| instance := instance s; fresh := fresh s; effects := effects s;
        dateReads := S (dateReads s); patchCalls := patchCalls s;
        eventCalls := eventCalls s |}).

Definition nextPatch (env : Env) : M bool :=
  fun s =>
    (JS.Normal (patchStatusOk env (patchCalls s)),
     {| instance := instance s; fresh := fresh s; effects := effects s;
        dateReads := dateReads s; patchCalls := S (patchCalls s);
        eventCalls := eventCalls s |}).

Definition nextEvent (env : Env) : M bool :=
  fun s =>
    (JS.Normal (writeEventOk env (eventCalls s)),
     {| instance := instance s; fresh := fresh s; effects := effects s;
        dateReads := dateReads s; patchCalls := patchCalls s;
        eventCalls := S (eventCalls s) |}).

Definition setConditions (cs : list Condition.t) (i : WebApp.t) : WebApp.t :=
  {| WebApp.metadata := WebApp.metadata i; WebApp.spec := WebApp.spec i;
     WebApp.status := Some {| Status.conditions := Some cs |} |}.

(** The array behind a reference. *)
Definition deref (r : ArrayRef) : M (list Condition.t) :=
  fun s =>
    match r with
    | FreshArray => (JS.Normal (fresh s), s)
    | StatusConditions => (JS.Normal (WebAppGate.conditionsOf (instance s)), s)
    end.

(** [conditions.push(c)] *)
Definition push (r : ArrayRef) (c : Condition.t) : M unit :=
  fun s =>
    match r with
    | FreshArray =>
        (JS.Normal tt,
         {| instance := instance s; fresh := fresh s ++ [c]; effects := effects s;
            dateReads := dateReads s; patchCalls := patchCalls s;
            eventCalls := eventCalls s |})
    | StatusConditions =>
        (JS.Normal tt,
         {| instance :=
              setConditions (WebAppGate.conditionsOf (instance s) ++ [c]) (instance s);
            fresh := fresh s; effects := effects s;
            dateReads := dateReads s; patchCalls := patchCalls s;
            eventCalls := eventCalls s |})
    end.

(** [getConditions(instance)]: [instance.status?.conditions || []].  An
    array is truthy even when empty, so the result is the instance's own
    array whenever it has one. *)
Definition getConditions : M ArrayRef :=
  i <- readInstance ;;
  match WebApp.status i with
  | Some {| Status.conditions := Some _ |} => ret StatusConditions
  | _ => ret FreshArray
  end.

(** [updateStatus(instance, status)] *)
Definition updateStatus (env : Env) (status : option Status.t) : M unit :=
  i <- readInstance ;;
  ok <- nextPatch env ;;
  emit (PatchStatus (Meta.name (WebApp.metadata i))
          (Meta.namespace (WebApp.metadata i)) status ok) ;;
  if ok then ret tt
  else emit (LogError ("Failed to update status for " ++ Meta.name (WebApp.metadata i))).

(** [writeEvent(instance, { message }, { eventType: "Normal", ... })] *)
Definition writeEvent (env : Env) (message : string) : M unit :=
  i <- readInstance ;;
  ok <- nextEvent env ;;
  emit (WriteEvent message "Normal" "InstanceCreatedOrUpdated"
          (Meta.name (WebApp.metadata i)) (Meta.name (WebApp.metadata i)) ok) ;;
  if ok then ret tt else throw (JS.Rejected "writeEvent").

(** [Deploy(instance)] *)
Definition Deploy (env : Env) : M unit :=
  emit (DeployCall (deployOk env)) ;;
  if deployOk env then ret tt else throw (JS.Rejected "Deploy").

(** [instance.status?.conditions?.[instance.status?.conditions.length - 1].observedGeneration] *)
Definition lastObservedGeneration (i : WebApp.t) : JS.Completion (option Z) :=
  match WebApp.status i with
  | None => JS.Normal None
  | Some st =>
      match Status.conditions st with
      | None => JS.Normal None
      | Some cs =>
          match JS.index cs (JS.length cs - 1) with
          | None => JS.Throw (JS.TypeError "observedGeneration")
          | Some c => JS.Normal (Condition.observedGeneration c)
          end
      end
  end.

(** The object literal [{ status: "", reason: "" }] *)
Definition emptyCondition : Condition.t :=
  {| Condition.observedGeneration := None; Condition.lastTransitionTime := None;
     Condition.reason := ""; Condition.status := "" |}.

(** [instance.status?.conditions[instance.status?.conditions.length - 1] || { status: "", reason: "" }] *)
Definition latestCondition (i : WebApp.t) : JS.Completion Condition.t :=
  match WebApp.status i with
  | None => JS.Normal emptyCondition
  | Some st =>
      match Status.conditions st with
      | None => JS.Throw (JS.TypeError "length")
      | Some cs => JS.Normal (JS.nullish (JS.index cs (JS.length cs - 1)) emptyCondition)
      end
  end.

(** Lines 69 to 83 of the callback: the value of [shouldDeploy]. *)
Definition shouldDeploy (i : WebApp.t) : JS.Completion bool :=
  let generation := Meta.generation (WebApp.metadata i) in
  JS.bind (lastObservedGeneration i) (fun observedGeneration =>
  JS.bind (latestCondition i) (fun latest =>
  let isPending :=
    String.eqb (Condition.status latest) "Pending"
    || String.eqb (Condition.reason latest) "Processing" in
  JS.Normal (negb (JS.strictEq generation observedGeneration) && negb isPending))).

(** [instance.status?.conditions?.[instance.status?.conditions?.length].observedGeneration],
    the [observedGeneration] of the Failed condition. *)
Definition failedObservedGeneration (i : WebApp.t) : JS.Completion (option Z) :=
  match WebApp.status i with
  | None => JS.Normal None
  | Some st =>
      match Status.conditions st with
      | None => JS.Normal None
      | Some cs =>
          match JS.index cs (JS.length cs) with
          | None => JS.Throw (JS.TypeError "observedGeneration")
          | Some c => JS.Normal (Condition.observedGeneration c)
          end
      end
  end.

Definition pendingCondition (generation : option Z) (d : Date) : Condition.t :=
  {| Condition.observedGeneration := generation; Condition.lastTransitionTime := Some d;
     Condition.reason := "Processing"; Condition.status := "Pending" |}.

Definition readyCondition (generation : option Z) (d : Date) : Condition.t :=
  {| Condition.observedGeneration := generation; Condition.lastTransitionTime := Some d;
     Condition.reason := "Reconciled"; Condition.status := "Ready" |}.

Definition failedCondition (observed : option Z) (d : Date) : Condition.t :=
  {| Condition.observedGeneration := observed; Condition.lastTransitionTime := Some d;
     Condition.reason := "Could not reconcile"; Condition.status := "Failed" |}.

Definition Reconcile (env : Env) : M unit :=
  instance0 <- readInstance ;;
  let generation := Meta.generation (WebApp.metadata instance0) in
  deploy <- lift (shouldDeploy instance0) ;;
  if negb deploy then
    emit (LogDebug ("Skipping reconcile for " ++ Meta.name (WebApp.metadata instance0)
                    ++ ", generation has not changed or is pending."))
  else
    conditions <- getConditions ;;
    d <- newDate env ;;
    push conditions (pendingCondition generation d) ;;
    cs <- deref conditions ;;
    updateStatus env (Some {| Status.conditions := Some cs |}) ;;
    writeEvent env "Pending" ;;
    tryCatch
      (Deploy env ;;
       d <- newDate env ;;
       push conditions (readyCondition generation d) ;;
       cs <- deref conditions ;;
       updateStatus env (Some {| Status.conditions := Some cs |}) ;;
       writeEvent env "Reconciled")
      (fun err =>
       i <- readInstance ;;
       emit (LogError ("Deployment failed for " ++ Meta.name (WebApp.metadata i))) ;;
       observed <- lift (failedObservedGeneration i) ;;
       d <- newDate env ;;
       push conditions (failedCondition observed d) ;;
       i <- readInstance ;;
       updateStatus env (WebApp.status i) ;;
       writeEvent env "Failed").

(** One invocation of the callback on [i]. *)
Definition run (env : Env) (i : WebApp.t) : JS.Completion unit * State :=
  Reconcile env (initial i).

(** The array bound to [conditions] when the invocation ends: the
    instance's own array when it has one, the fresh one otherwise. *)
Definition ledger (s : State) : list Condition.t :=
  match WebApp.status (instance s) with
  | Some {| Status.conditions := Some cs |} => cs
  | _ => fresh s
  end.

(** The ledger the invocation started from. *)
Definition ledger0 (i : WebApp.t) : list Condition.t := ledger (initial i).

(** Effects that reach the cluster. *)
Definition isLog (e : Effect) : bool :=
  match e with
  | LogDebug _ | LogError _ => true
  | _ => false
  end.

(** The Conditions of a cycle as the specification words them. *)
Definition Pending (generation : option Z) (t : Date) : Condition.t :=
{| Condition.observedGeneration := generation; Condition.lastTransitionTime := Some t;
   Condition.reason := "Processing"; Condition.status := "Pending" |}.

Definition Ready (generation : option Z) (t : Date) : Condition.t :=
{| Condition.observedGeneration := generation; Condition.lastTransitionTime := Some t;
   Condition.reason := "Reconciled"; Condition.status := "Ready" |}.

(** The calls of the trace that reach the cluster, logging left out. *)
Definition cluster (tr : list Effect) : list Effect :=
List.filter (fun e => negb (isLog e)) tr.

(** The status patch and the event that the callback issues for [i]. *)
Definition patchOf (i : WebApp.t) (cs : list Condition.t) (resolved : bool) : Effect :=
PatchStatus (Meta.name (WebApp.metadata i)) (Meta.namespace (WebApp.metadata i))
  (Some {| Status.conditions := Some cs |}) resolved.

Definition eventOf (i : WebApp.t) (message : string) (resolved : bool) : Effect :=
WriteEvent message "Normal" "InstanceCreatedOrUpdated"
  (Meta.name (WebApp.metadata i)) (Meta.name (WebApp.metadata i)) resolved.


(** The status store of the API server, an external system at the
    Watch/Reconcile boundary (PatchStatus(identity, status)).  An accepted
    patch that carries a conditions array replaces the stored array; a
    patch without a status or a rejected patch changes nothing. *)
Definition applyPatch (stored : option Status.t) (e : Effect) : option Status.t :=
  match e with
  | PatchStatus _ _ (Some {| Status.conditions := Some cs |}) true =>
      Some {| Status.conditions := Some cs |}
  | _ => stored
  end.

Definition persisted (stored : option Status.t) (tr : list Effect) : option Status.t :=
  fold_left applyPatch tr stored.

End Reconciler.

(** ** Concrete requests and instances *)

Module Examples.

(** A container that asks for privilege escalation in so many words:
    [securityContext: { allowPrivilegeEscalation: true }]. *)
Definition explicitEscalation : PodGate.Container :=
{| PodGate.name := "app"; PodGate.image := "nginx";
   PodGate.securityContext :=
     Some {| PodGate.allowPrivilegeEscalation := Some true;
             PodGate.privileged := None;
             PodGate.capabilities := None;
             PodGate.runAsNonRoot := None |} |}.

(** A container without any [securityContext]. *)
Definition bare : PodGate.Container :=
{| PodGate.name := "app"; PodGate.image := "nginx"; PodGate.securityContext := None |}.

Definition pendingCondition : Condition.t :=
{| Condition.observedGeneration := Some 1; Condition.lastTransitionTime := Some 1700000000000;
   Condition.reason := "Processing"; Condition.status := "Pending" |}.

Definition readyCondition : Condition.t :=
{| Condition.observedGeneration := Some 1; Condition.lastTransitionTime := Some 1700000000000;
   Condition.reason := "Reconciled"; Condition.status := "Ready" |}.

Definition meta (generation : option Z) : Meta.t :=
{| Meta.name := "english-light"; Meta.namespace := "webapps";
   Meta.generation := generation; Meta.annotations := ∅ |}.

(** A spec that breaks the three rules at once. *)
Definition invalidSpec : Spec.t :=
{| Spec.language := "french"; Spec.replicas := 0; Spec.theme := "blue" |}.

Definition validSpec : Spec.t :=
{| Spec.language := "english"; Spec.replicas := 1; Spec.theme := "light" |}.

(** An invalid spec on an instance that is being deployed. *)
Definition pendingInvalid : WebApp.t :=
{| WebApp.metadata := meta (Some 1); WebApp.spec := Some invalidSpec;
   WebApp.status := Some {| Status.conditions := Some [pendingCondition] |} |}.

(** The same spec once the instance is Ready. *)
Definition readyInvalid : WebApp.t :=
{| WebApp.metadata := meta (Some 1); WebApp.spec := Some invalidSpec;
   WebApp.status := Some {| Status.conditions := Some [readyCondition] |} |}.

(** [{generation: 2, lastCondition: {status: Ready, observedGeneration: 1}}] *)
Definition readyAtOne : WebApp.t :=
{| WebApp.metadata := meta (Some 2); WebApp.spec := Some validSpec;
   WebApp.status := Some {| Status.conditions := Some [readyCondition] |} |}.

(** What a cycle for generation 2 appends in the worlds below. *)
Definition pendingAtTwo : Condition.t :=
{| Condition.observedGeneration := Some 2; Condition.lastTransitionTime := Some 1700000000000;
   Condition.reason := "Processing"; Condition.status := "Pending" |}.

Definition readyAtTwo : Condition.t :=
{| Condition.observedGeneration := Some 2; Condition.lastTransitionTime := Some 1700000000001;
   Condition.reason := "Reconciled"; Condition.status := "Ready" |}.


(** An instance whose status carries an empty conditions array. *)
Definition emptyLedger : WebApp.t :=
{| WebApp.metadata := meta (Some 1); WebApp.spec := Some validSpec;
   WebApp.status := Some {| Status.conditions := Some [] |} |}.

(** A world in which every awaited call resolves. *)
Definition calm : Reconciler.Env :=
{| Reconciler.now := fun n => 1700000000000 + Z.of_nat n;
   Reconciler.patchStatusOk := fun _ => true;
   Reconciler.writeEventOk := fun _ => true;
   Reconciler.deployOk := true |}.

(** The same world with a generator that fails. *)
Definition brokenDeploy : Reconciler.Env :=
{| Reconciler.now := fun n => 1700000000000 + Z.of_nat n;
   Reconciler.patchStatusOk := fun _ => true;
   Reconciler.writeEventOk := fun _ => true;
   Reconciler.deployOk := false |}.

(** A Ready instance submitted without a spec. *)
Definition readyWithoutSpec : WebApp.t :=
{| WebApp.metadata := meta (Some 1); WebApp.spec := None;
   WebApp.status := Some {| Status.conditions := Some [readyCondition] |} |}.


End Examples.

(** ** Further readings of a pod, of a trace and of the environment *)

Module Readings.

Definition capabilitiesOf (c : PodGate.Container) : option PodGate.Capabilities :=
  match PodGate.securityContext c with
  | None => None
  | Some sc => PodGate.capabilities sc
  end.

Definition runAsNonRootOf (c : PodGate.Container) : option bool :=
  match PodGate.securityContext c with
  | None => None
  | Some sc => PodGate.runAsNonRoot sc
  end.

(** Two containers that agree on having a security context, on
    allowPrivilegeEscalation and on privileged; they may differ in name,
    image, capabilities and runAsNonRoot. *)
Definition sameEscalationFields (c1 c2 : PodGate.Container) : Prop :=
  (PodGate.securityContext c1 = None <-> PodGate.securityContext c2 = None)
  /\ PodGate.apeOf c1 = PodGate.apeOf c2
  /\ PodGate.privilegedOf c1 = PodGate.privilegedOf c2.

Definition isDeploy (e : Reconciler.Effect) : bool :=
  match e with
  | Reconciler.DeployCall _ => true
  | _ => false
  end.

(** The environment in which every status patch resolves, all else equal. *)
Definition patchesResolve (env : Reconciler.Env) : Reconciler.Env :=
  {| Reconciler.now := Reconciler.now env;
     Reconciler.patchStatusOk := fun _ => true;
     Reconciler.writeEventOk := Reconciler.writeEventOk env;
     Reconciler.deployOk := Reconciler.deployOk env |}.

(** A call with the outcome of a status patch forgotten. *)
Definition eraseResolved (e : Reconciler.Effect) : Reconciler.Effect :=
  match e with
  | Reconciler.PatchStatus n ns st _ => Reconciler.PatchStatus n ns st true
  | _ => e
  end.

(** A status patch that carries a conditions array carries an extension
    of [l0]. *)
Definition extends (l0 : list Condition.t) (e : Reconciler.Effect) : Prop :=
  match e with
  | Reconciler.PatchStatus _ _ (Some {| Status.conditions := Some l |}) _ => l0 `prefix_of` l
  | _ => True
  end.

(** A container that adds CAP_SYS_ADMIN and states
    [allowPrivilegeEscalation: false]. *)
Definition sysAdminNoEscalation : PodGate.Container :=
  {| PodGate.name := "tool"; PodGate.image := "busybox";
     PodGate.securityContext :=
       Some {| PodGate.allowPrivilegeEscalation := Some false;
               PodGate.privileged := None;
               PodGate.capabilities :=
                 Some {| PodGate.add := Some ["CAP_SYS_ADMIN"]; PodGate.drop := None |};
               PodGate.runAsNonRoot := None |} |}.

(** A container that only states [allowPrivilegeEscalation: false]. *)
Definition noEscalation : PodGate.Container :=
  {| PodGate.name := "app"; PodGate.image := "nginx";
     PodGate.securityContext :=
       Some {| PodGate.allowPrivilegeEscalation := Some false;
               PodGate.privileged := None;
               PodGate.capabilities := None;
               PodGate.runAsNonRoot := None |} |}.

(** [securityContext: { privileged: true, allowPrivilegeEscalation: false }] *)
Definition privilegedContainer : PodGate.Container :=
  {| PodGate.name := "agent"; PodGate.image := "agent";
     PodGate.securityContext :=
       Some {| PodGate.allowPrivilegeEscalation := Some false;
               PodGate.privileged := Some true;
               PodGate.capabilities := None;
               PodGate.runAsNonRoot := None |} |}.

(** A WebApp that was just created: generation 1 and no status. *)
Definition created : WebApp.t :=
  {| WebApp.metadata := Examples.meta (Some 1); WebApp.spec := Some Examples.validSpec;
     WebApp.status := None |}.

(** Generation 3 of an instance whose stored ledger ends with the Pending
    condition of generation 2. *)
Definition wedged : WebApp.t :=
  {| WebApp.metadata := Examples.meta (Some 3); WebApp.spec := Some Examples.invalidSpec;
     WebApp.status :=
       Some {| Status.conditions := Some [Examples.readyCondition; Examples.pendingAtTwo] |} |}.

(** Generation 3 of [Examples.readyAtOne] after its cycle for generation 2. *)
Definition readyAtTwoThenThree : WebApp.t :=
  {| WebApp.metadata := Examples.meta (Some 3); WebApp.spec := Some Examples.validSpec;
     WebApp.status :=
       Some {| Status.conditions :=
                 Some [Examples.readyCondition; Examples.pendingAtTwo; Examples.readyAtTwo] |} |}.

(** Worlds in which one call is rejected. *)
Definition lostPendingEvent : Reconciler.Env :=
  {| Reconciler.now := fun n => 1700000000000 + Z.of_nat n;
     Reconciler.patchStatusOk := fun _ => true;
     Reconciler.writeEventOk := fun n => negb (Nat.eqb n 0);
     Reconciler.deployOk := true |}.

Definition lostReconciledEvent : Reconciler.Env :=
  {| Reconciler.now := fun n => 1700000000000 + Z.of_nat n;
     Reconciler.patchStatusOk := fun _ => true;
     Reconciler.writeEventOk := fun n => negb (Nat.eqb n 1);
     Reconciler.deployOk := true |}.

End Readings.

(** * Properties *)

(** ** Array reads *)

Section ArrayFacts.
Context {A : Type}.
Implicit Types (arr : list A) (x : A).

(** Reading at [length - 1] is reading the last element, if any. *)
Lemma index_last arr : JS.index arr (JS.length arr - 1) = last arr.
Proof.
  unfold JS.index, JS.length.
  destruct arr as [|x arr]; [reflexivity|].
  destruct (Z.ltb_spec (Z.of_nat (List.length (x :: arr)) - 1) 0) as [Hlt|_].
  - simpl in Hlt. lia.
  - replace (Z.to_nat (Z.of_nat (List.length (x :: arr)) - 1)) with (List.length arr)
      by (simpl; lia).
    rewrite last_lookup. reflexivity.
Qed.

(** Reading at [length] is always out of bounds. *)
Lemma index_length arr : JS.index arr (JS.length arr) = None.
Proof.
  unfold JS.index, JS.length.
  destruct (Z.ltb_spec (Z.of_nat (List.length arr)) 0) as [_|_]; [reflexivity|].
  rewrite Nat2Z.id. apply lookup_ge_None. lia.
Qed.
End ArrayFacts.

(** ** The pod security policy *)

Section PodPolicy.
Import PodGate.

Lemma mutateContainer_cases c :
  mutateContainer c = if meetsCriteria c then defaulted c else c.
Proof.
  destruct c as [n img [[ape priv caps nonroot]|]]; [|reflexivity].
  unfold mutateContainer, meetsCriteria, defaulted, mutateCriteria, apeOf,
    privilegedOf, raisesCapability, JS.not. simpl.
  destruct ape as [b|]; simpl; [reflexivity|].
  destruct (JS.truthy priv); simpl; [reflexivity|].
  rewrite andb_true_r.
  destruct (JS.truthy (addsSysAdmin _)); reflexivity.
Qed.

Lemma meetsCriteria_unset c : meetsCriteria c = true -> apeOf c = None.
Proof.
  unfold meetsCriteria. destruct (apeOf c); simpl; [discriminate|reflexivity].
Qed.

Lemma defaulted_ape c : apeOf (defaulted c) = Some false.
Proof. reflexivity. Qed.

Lemma defaulted_privileged c : privilegedOf (defaulted c) = privilegedOf c.
Proof. destruct c as [n img [sc|]]; reflexivity. Qed.

Lemma defaulted_raises c : raisesCapability (defaulted c) = raisesCapability c.
Proof. destruct c as [n img [sc|]]; reflexivity. Qed.

(** A mutated container always carries a security context. *)
Lemma mutateContainer_securityContext c : securityContext (mutateContainer c) <> None.
Proof. unfold mutateContainer. simpl. discriminate. Qed.

(** After the mutation a container no longer meets the criteria. *)
Lemma mutateContainer_settled c : meetsCriteria (mutateContainer c) = false.
Proof.
  rewrite mutateContainer_cases.
  destruct (meetsCriteria c) eqn:Hc; [|exact Hc].
  unfold meetsCriteria. rewrite defaulted_ape. reflexivity.
Qed.

Lemma mutateContainer_idempotent c :
  mutateContainer (mutateContainer c) = mutateContainer c.
Proof.
  rewrite (mutateContainer_cases (mutateContainer c)).
  rewrite mutateContainer_settled. reflexivity.
Qed.

(** On containers that all carry a security context the filter of the
    Validate callback is the plain filter by [violatesPolicy]. *)
Lemma filter_isViolation l :
  Forall (fun c => securityContext c <> None) l ->
  JS.filter isViolation l = JS.Normal (List.filter violatesPolicy l).
Proof.
  induction 1 as [|c l Hc _ IH]; [reflexivity|].
  simpl. rewrite IH.
  unfold isViolation, violatesPolicy, apeOf, privilegedOf.
  destruct (securityContext c) as [sc|]; [|congruence].
  simpl. destruct (allowPrivilegeEscalation sc) as [[|]|]; reflexivity.
Qed.

Lemma Validate_decides request :
  Forall (fun c => securityContext c <> None) (containers request) ->
  Validate request =
    JS.Normal (if existsb violatesPolicy (containers request) then denial else Approve).
Proof.
  intros Hsc. unfold Validate. rewrite (filter_isViolation _ Hsc). simpl.
  induction (containers request) as [|c l IH]; [reflexivity|].
  simpl. destruct (violatesPolicy c); [reflexivity|].
  apply IH. inversion Hsc; assumption.
Qed.

(** One container without a security context is enough for the callback
    to raise. *)
Lemma Validate_faults request c :
  In c (containers request) ->
  securityContext c = None ->
  Validate request = JS.Throw (JS.TypeError "allowPrivilegeEscalation").
Proof.
  intros Hin Hnone. unfold Validate.
  assert (Hf : JS.filter isViolation (containers request)
               = JS.Throw (JS.TypeError "allowPrivilegeEscalation")).
  { induction (containers request) as [|x l IH]; [destruct Hin|].
    simpl. unfold isViolation at 1.
    destruct (securityContext x) as [sc|] eqn:Hx; [|reflexivity].
    destruct Hin as [-> | Hin]; [congruence|].
    simpl. rewrite (IH Hin). reflexivity. }
  rewrite Hf. reflexivity.
Qed.

Lemma violatesPolicy_mutateContainer c :
  violatesPolicy (mutateContainer c) = negb (admissible c).
Proof.
  rewrite mutateContainer_cases.
  destruct c as [n img [[[[|]|] [[|]|] caps nonroot]|]]; try reflexivity;
    unfold meetsCriteria, admissible, violatesPolicy, raisesCapability; simpl;
    destruct (JS.truthy _); reflexivity.
Qed.

Lemma existsb_violates_mutated l :
  existsb violatesPolicy (map mutateContainer l) = negb (forallb admissible l).
Proof.
  induction l as [|c l IH]; [reflexivity|].
  simpl. rewrite IH, violatesPolicy_mutateContainer.
  destruct (admissible c); reflexivity.
Qed.

End PodPolicy.

Section PodClaims.
Import PodGate.

(** C5, as stated, fails: after Mutate a container that explicitly set
    [allowPrivilegeEscalation: true] still has it true, is not privileged
    and adds no capability, so the disjunction
    "allowPrivilegeEscalation = false ∨ privileged = true ∨ capability-raise
    present" does not hold of every container of the mutated pod. *)
Lemma C5_explicit_escalation_survives_mutate :
  ~ Forall escalationClosed (containers (Mutate {| Raw := [Examples.explicitEscalation] |})).
Proof.
  intros H. apply Forall_cons_1 in H as [[H|[H|H]] _]; discriminate H.
Qed.

(** C5, amended: for every pod request, Mutate turns each container [c]
    into [c'] such that [c'] is [c] with allowPrivilegeEscalation set to
    false when [c] has it unset, is not privileged and does not add the
    raised capability, and [c'] is [c] itself otherwise (so the container
    is changed if and only if the three conditions hold); after Mutate
    every container has allowPrivilegeEscalation set (false where Mutate
    set it, the value of the request otherwise) or privileged = true or the
    capability raise present. *)
Theorem C5_pod_mutate_defaults_unset_only (request : PodRequest) :
  Forall2
    (fun c c' =>
       c' = (if meetsCriteria c then defaulted c else c)
       /\ (meetsCriteria c = true <-> c' <> c)
       /\ (meetsCriteria c = true -> apeOf c' = Some false)
       /\ (meetsCriteria c = false -> apeOf c' = apeOf c)
       /\ escalationDecided c')
    (containers request) (containers (Mutate request)).
Proof.
  unfold Mutate, containers. simpl.
  induction (Raw request) as [|c l IH]; simpl; constructor; [|exact IH].
  rewrite mutateContainer_cases.
  destruct (meetsCriteria c) eqn:Hc.
  - pose proof (meetsCriteria_unset _ Hc) as Hunset.
    repeat split; try discriminate.
    + intros _ Heq. rewrite <- Heq in Hunset. discriminate Hunset.
    + left. rewrite defaulted_ape. discriminate.
  - repeat split; try discriminate; try congruence.
    unfold escalationDecided. unfold meetsCriteria in Hc.
    destruct (apeOf c) as [b|]; [left; discriminate|].
    destruct (privilegedOf c) as [[|]|]; simpl in Hc;
      try (right; left; reflexivity); right; right;
      destruct (raisesCapability c); try reflexivity; discriminate.
Qed.

(** C6 fails on the code: on a pod whose only container has no
    securityContext the Validate callback returns no decision; the read of
    [c.securityContext.allowPrivilegeEscalation] raises a TypeError. *)
Theorem C6_validate_faults_without_securityContext :
  Validate {| Raw := [Examples.bare] |}
  = JS.Throw (JS.TypeError "allowPrivilegeEscalation").
Proof. reflexivity. Qed.

(** C7, as stated, fails: the pod that Mutate produces from a container
    with [allowPrivilegeEscalation: true] is denied by Validate. *)
Lemma C7_mutated_pod_denied :
  Validate (Mutate {| Raw := [Examples.explicitEscalation] |}) <> JS.Normal Approve.
Proof. discriminate. Qed.

(** C7, amended: for every pod request, Validate applied to the output of
    Mutate returns a decision (it never faults), and the decision is
    Approve exactly when every container of the request has privileged
    falsy and allowPrivilegeEscalation either false, or unset without the
    raised capability; it is the 403 denial otherwise.  In particular every
    container that Mutate defaults passes the check of Validate. *)
Theorem C7_validate_after_mutate (request : PodRequest) :
  Validate (Mutate request)
  = JS.Normal (if forallb admissible (containers request) then Approve else denial)
  /\ Forall (fun c => meetsCriteria c = true -> violatesPolicy (mutateContainer c) = false)
       (containers request).
Proof.
  split.
  - rewrite Validate_decides.
    + unfold Mutate, containers. simpl. rewrite existsb_violates_mutated.
      destruct (forallb admissible (Raw request)); reflexivity.
    + unfold Mutate, containers. simpl.
      induction (Raw request) as [|c l IH]; constructor;
        [apply mutateContainer_securityContext | exact IH].
  - apply Forall_forall. intros c _ Hc.
    rewrite mutateContainer_cases, Hc.
    unfold violatesPolicy. rewrite defaulted_ape, defaulted_privileged.
    unfold meetsCriteria in Hc. simpl.
    destruct (JS.truthy (privilegedOf c)); [|reflexivity].
    destruct (JS.isUndefined (apeOf c)); discriminate Hc.
Qed.

(** C10: the pod Mutate step is idempotent: applying it twice yields the
    same containers as applying it once, and no container of the mutated
    pod meets the three criteria any more. *)
Theorem C10_pod_mutate_idempotent (request : PodRequest) :
  Mutate (Mutate request) = Mutate request
  /\ Forall (fun c => meetsCriteria c = false) (containers (Mutate request)).
Proof.
  unfold Mutate, containers. simpl. split.
  - f_equal. rewrite map_map. apply map_ext. intros c. apply mutateContainer_idempotent.
  - apply Forall_forall. intros c' Hin.
    apply list_elem_of_In, in_map_iff in Hin as [c [<- _]].
    apply mutateContainer_settled.
Qed.

End PodClaims.

(** ** The admission callbacks of the WebApp *)

Section WebAppClaims.
Import WebAppGate.

(** The test of the callbacks is the test of the specification. *)
Lemma isPending_spec wa : isPending wa = true <-> lastConditionPending wa.
Proof.
  unfold isPending, lastConditionPending. rewrite index_last. split.
  - destruct (last (conditionsOf wa)) as [c|] eqn:Hlast; [|discriminate].
    intros Hc. apply String.eqb_eq in Hc.
    unfold conditionsOf in Hlast.
    destruct (WebApp.status wa) as [[[cs|]]|]; try discriminate Hlast.
    exists cs, c. auto.
  - intros (cs & c & Hst & Hlast & Hc).
    unfold conditionsOf. rewrite Hst. simpl. rewrite Hlast.
    apply String.eqb_eq, Hc.
Qed.

Lemma isPending_false wa : ~ lastConditionPending wa -> isPending wa = false.
Proof.
  intros H. destruct (isPending wa) eqn:Hp; [|reflexivity].
  exfalso. apply H, isPending_spec, Hp.
Qed.

Lemma holdsb_spec r s : holdsb r s = true <-> holds r s.
Proof.
  destruct r; simpl.
  - rewrite orb_true_iff, !String.eqb_eq. reflexivity.
  - rewrite Z.geb_le. lia.
  - rewrite orb_true_iff, !String.eqb_eq. reflexivity.
Qed.

(** The three tests of the callback are the negations of the rules. *)
Lemma language_test s :
  negb (JS.includes ["english"; "spanish"] (Spec.language s)) = negb (holdsb LanguageRule s).
Proof. simpl. rewrite orb_false_r. reflexivity. Qed.

Lemma replicas_test s : (Spec.replicas s <? 1) = negb (holdsb ReplicasRule s).
Proof. simpl. rewrite Z.geb_leb, Z.ltb_antisym. reflexivity. Qed.

Lemma theme_test s :
  negb (JS.includes ["dark"; "light"] (Spec.theme s)) = negb (holdsb ThemeRule s).
Proof. simpl. rewrite orb_false_r. reflexivity. Qed.

Lemma Validate_not_pending wa s :
  isPending wa = false ->
  WebApp.spec wa = Some s ->
  Validate wa =
    JS.Normal
      match violatedRules s with
      | [] => Approve
      | rs => Deny "Spec field is incorrect" 422 (Some (map message rs))
      end.
Proof.
  intros Hp Hs. unfold Validate. rewrite Hp, Hs.
  cbv zeta. rewrite language_test, replicas_test, theme_test.
  unfold violatedRules, rules. cbn [List.filter].
  destruct (holdsb LanguageRule _), (holdsb ReplicasRule _), (holdsb ThemeRule _);
    reflexivity.
Qed.

(** C3: pass-through law.  When the last Condition of the instance has
    status Pending, Mutate leaves the object as it is and Validate returns
    Approve, whatever spec.language, spec.replicas and spec.theme are. *)
Theorem C3_pending_passes_through (nowISO : string) (wa : WebApp.t) :
  lastConditionPending wa ->
  Mutate nowISO wa = wa /\ Validate wa = JS.Normal Approve.
Proof.
  intros Hp. apply isPending_spec in Hp.
  unfold Mutate, Validate. rewrite Hp. split; reflexivity.
Qed.

Lemma C3_pending_passes_through_witness :
  lastConditionPending Examples.pendingInvalid
  /\ Mutate "2026-11-02T00:00:00.000Z" Examples.pendingInvalid = Examples.pendingInvalid
  /\ Validate Examples.pendingInvalid = JS.Normal Approve.
Proof.
  assert (H : lastConditionPending Examples.pendingInvalid).
  { exists [Examples.pendingCondition], Examples.pendingCondition.
    repeat split; reflexivity. }
  split; [exact H|].
  apply (C3_pending_passes_through "2026-11-02T00:00:00.000Z" Examples.pendingInvalid H).
Defined.

(** C4, as stated, fails: a request that carries no spec, on an instance
    whose last Condition is Ready, gets neither Deny nor Approve; the
    callback raises a TypeError where it destructures the spec. *)
Lemma C4_validate_raises_without_spec :
  ~ lastConditionPending Examples.readyWithoutSpec
  /\ Validate Examples.readyWithoutSpec = JS.Throw (JS.TypeError "language")
  /\ (forall decision, Validate Examples.readyWithoutSpec <> JS.Normal decision).
Proof.
  split; [|split; [reflexivity | discriminate]].
  intros (cs & c & Hst & Hlast & Hc).
  injection Hst as <-. injection Hlast as <-. discriminate Hc.
Qed.

(** C4, amended: for every request that carries a spec and whose last
    Condition is not Pending, Validate returns Deny with status 422
    carrying the message of every violated rule among
    language ∈ {english, spanish}, replicas ≥ 1, theme ∈ {dark, light}, one
    message per violated rule, in the order of the rules; and it returns
    Approve if and only if no rule is violated. *)
Theorem C4_validate_reports_every_violation (wa : WebApp.t) (s : Spec.t) :
  WebApp.spec wa = Some s ->
  ~ lastConditionPending wa ->
  Validate wa =
    JS.Normal
      match violatedRules s with
      | [] => Approve
      | rs => Deny "Spec field is incorrect" 422 (Some (map message rs))
      end
  /\ NoDup (violatedRules s)
  /\ (forall r, In r (violatedRules s) <-> ~ holds r s)
  /\ (Validate wa = JS.Normal Approve <-> forall r, holds r s).
Proof.
  intros Hs Hnp. apply isPending_false in Hnp.
  pose proof (Validate_not_pending wa s Hnp Hs) as HV.
  assert (Hin : forall r, In r (violatedRules s) <-> ~ holds r s).
  { intros r. unfold violatedRules. rewrite List.filter_In, negb_true_iff.
    rewrite <- holdsb_spec, not_true_iff_false.
    split; [tauto|]. intros H. split; [|exact H].
    destruct r; simpl; tauto. }
  split; [exact HV|]. split; [|split; [exact Hin|]].
  - unfold violatedRules.
    apply NoDup_ListNoDup, List.NoDup_filter.
    unfold rules. repeat constructor; simpl; intuition discriminate.
  - rewrite HV. split.
    + intros Happ r.
      destruct (violatedRules s) as [|r0 rs] eqn:Hrs; [|discriminate].
      apply holdsb_spec. destruct (holdsb r s) eqn:Hr; [reflexivity|].
      exfalso. apply (Hin r). rewrite <- holdsb_spec, Hr. discriminate.
    + intros Hall.
      destruct (violatedRules s) as [|r0 rs] eqn:Hrs; [reflexivity|].
      exfalso. apply (proj1 (Hin r0)); [left; reflexivity | apply Hall].
Qed.

Lemma C4_validate_reports_every_violation_witness :
  WebApp.spec Examples.readyInvalid = Some Examples.invalidSpec
  /\ ~ lastConditionPending Examples.readyInvalid
  /\ Validate Examples.readyInvalid =
       JS.Normal
         (Deny "Spec field is incorrect" 422
            (Some ["language must be either 'english' or 'spanish'";
                   "replicas must be greater than 0";
                   "theme must be either 'dark' or 'light'"])).
Proof.
  assert (H : ~ lastConditionPending Examples.readyInvalid).
  { intros (cs & c & Hst & Hlast & Hc).
    injection Hst as <-. injection Hlast as <-. discriminate Hc. }
  split; [reflexivity|]. split; [exact H|].
  exact (proj1 (C4_validate_reports_every_violation Examples.readyInvalid
                  Examples.invalidSpec eq_refl H)).
Defined.

End WebAppClaims.

(** ** The reconciler *)

Section ReconcileFacts.
Import Reconciler.

Lemma strictEq_spec a b : JS.strictEq a b = true <-> a = b.
Proof. destruct a, b; simpl; try rewrite Z.eqb_eq; split; congruence. Qed.

Lemma strictEq_refl g : JS.strictEq g g = true.
Proof. apply strictEq_spec. reflexivity. Qed.

(** *** The guard, by the shape of the status *)

Lemma shouldDeploy_absent i :
  WebApp.status i = None ->
  shouldDeploy i = JS.Normal (negb (JS.isUndefined (Meta.generation (WebApp.metadata i)))).
Proof.
  intros H. unfold shouldDeploy, lastObservedGeneration, latestCondition. rewrite H. simpl.
  destruct (Meta.generation _); reflexivity.
Qed.

Lemma shouldDeploy_last i cs c :
  WebApp.status i = Some {| Status.conditions := Some cs |} ->
  last cs = Some c ->
  shouldDeploy i =
    JS.Normal
      (negb (JS.strictEq (Meta.generation (WebApp.metadata i)) (Condition.observedGeneration c))
       && negb (String.eqb (Condition.status c) "Pending"
                || String.eqb (Condition.reason c) "Processing")).
Proof.
  intros H Hl. unfold shouldDeploy, lastObservedGeneration, latestCondition. rewrite H. simpl.
  rewrite index_last, Hl. reflexivity.
Qed.

Lemma shouldDeploy_empty i :
  WebApp.status i = Some {| Status.conditions := Some [] |} ->
  shouldDeploy i = JS.Throw (JS.TypeError "observedGeneration").
Proof. intros H. unfold shouldDeploy, lastObservedGeneration. rewrite H. reflexivity. Qed.

Lemma shouldDeploy_no_conditions i :
  WebApp.status i = Some {| Status.conditions := None |} ->
  shouldDeploy i = JS.Throw (JS.TypeError "length").
Proof.
  intros H. unfold shouldDeploy, lastObservedGeneration, latestCondition. rewrite H.
  reflexivity.
Qed.


(** The index of the Failed branch is one past the end of the array. *)
Lemma failedObservedGeneration_own m sp cs :
  failedObservedGeneration
    {| WebApp.metadata := m; WebApp.spec := sp;
       WebApp.status := Some {| Status.conditions := Some cs |} |}
  = JS.Throw (JS.TypeError "observedGeneration").
Proof. unfold failedObservedGeneration. simpl. rewrite index_length. reflexivity. Qed.

Lemma failedObservedGeneration_absent m sp :
  failedObservedGeneration
    {| WebApp.metadata := m; WebApp.spec := sp; WebApp.status := None |}
  = JS.Normal None.
Proof. reflexivity. Qed.

Arguments failedObservedGeneration : simpl never.
Arguments shouldDeploy : simpl never.

(** *** Symbolic runs of the callback *)

Ltac enter_run Hg :=
  unfold run, Reconcile, bind, lift, readInstance, tryCatch;
  cbv beta iota delta [initial instance];
  rewrite Hg; cbn; unfold setConditions; cbn.

Ltac branch :=
  match goal with
  | |- context [patchStatusOk ?env ?n] => destruct (patchStatusOk env n) eqn:?
  | |- context [writeEventOk ?env ?n] => destruct (writeEventOk env n) eqn:?
  | |- context [deployOk ?env] => destruct (deployOk env) eqn:?
  end;
  cbn; unfold setConditions; cbn;
  rewrite ?failedObservedGeneration_own, ?failedObservedGeneration_absent; cbn.

Lemma run_throw env i e :
  shouldDeploy i = JS.Throw e -> run env i = (JS.Throw e, initial i).
Proof. intros Hg. enter_run Hg. reflexivity. Qed.

Lemma run_skip env i :
  shouldDeploy i = JS.Normal false ->
  fst (run env i) = JS.Normal tt
  /\ instance (snd (run env i)) = i
  /\ fresh (snd (run env i)) = []
  /\ cluster (effects (snd (run env i))) = []
  /\ (forall st, persisted st (effects (snd (run env i))) = st).
Proof. intros Hg. enter_run Hg. repeat split. Qed.

(** Every instance with an empty conditions array makes the callback
    raise before it does anything. *)
Lemma run_empty_conditions env i :
  WebApp.status i = Some {| Status.conditions := Some [] |} ->
  run env i = (JS.Throw (JS.TypeError "observedGeneration"), initial i).
Proof. intros H. apply run_throw, shouldDeploy_empty, H. Qed.


(** The successful cycle, from any instance on which the guard fires. *)
Lemma run_success env i :
  shouldDeploy i = JS.Normal true ->
  deployOk env = true -> writeEventOk env 0 = true -> writeEventOk env 1 = true ->
  let pending := pendingCondition (Meta.generation (WebApp.metadata i)) (now env 0) in
  let ready := readyCondition (Meta.generation (WebApp.metadata i)) (now env 1) in
  fst (run env i) = JS.Normal tt
  /\ ledger (snd (run env i)) = ledger0 i ++ [pending; ready]
  /\ cluster (effects (snd (run env i))) =
       [ patchOf i (ledger0 i ++ [pending]) (patchStatusOk env 0);
         eventOf i "Pending" true;
         DeployCall true;
         patchOf i (ledger0 i ++ [pending; ready]) (patchStatusOk env 1);
         eventOf i "Reconciled" true ].
Proof.
  intros Hg Hd He0 He1.
  destruct i as [m sp [[[cs|]]|]].
  - enter_run Hg. repeat branch; try congruence;
      unfold ledger0, ledger, patchOf, eventOf; cbn; rewrite <- ?app_assoc;
      repeat split.
  - rewrite shouldDeploy_no_conditions in Hg by reflexivity. discriminate Hg.
  - enter_run Hg. repeat branch; try congruence;
      unfold ledger0, ledger, patchOf, eventOf; cbn; repeat split.
Qed.

(** The failing cycle on an instance that has a conditions array: the
    handler raises a TypeError before it can push the Failed condition. *)
Lemma run_failure_own env i cs :
  WebApp.status i = Some {| Status.conditions := Some cs |} ->
  shouldDeploy i = JS.Normal true ->
  deployOk env = false -> writeEventOk env 0 = true ->
  let pending := pendingCondition (Meta.generation (WebApp.metadata i)) (now env 0) in
  fst (run env i) = JS.Throw (JS.TypeError "observedGeneration")
  /\ ledger (snd (run env i)) = cs ++ [pending]
  /\ cluster (effects (snd (run env i))) =
       [ patchOf i (cs ++ [pending]) (patchStatusOk env 0);
         eventOf i "Pending" true;
         DeployCall false ].
Proof.
  intros Hst Hg Hd He0.
  destruct i as [m sp st]. simpl in Hst. subst st.
  enter_run Hg. repeat branch; try congruence;
    unfold ledger, patchOf, eventOf; cbn; repeat split.
Qed.

(** The failing cycle on an instance without status: the Failed condition
    is pushed on the local array with an undefined observedGeneration, and
    the status sent to the store is [instance.status], that is undefined. *)
Lemma run_failure_fresh env i :
  WebApp.status i = None ->
  shouldDeploy i = JS.Normal true ->
  deployOk env = false -> writeEventOk env 0 = true -> writeEventOk env 1 = true ->
  let pending := pendingCondition (Meta.generation (WebApp.metadata i)) (now env 0) in
  fst (run env i) = JS.Normal tt
  /\ ledger (snd (run env i)) = [pending; failedCondition None (now env 1)]
  /\ cluster (effects (snd (run env i))) =
       [ patchOf i [pending] (patchStatusOk env 0);
         eventOf i "Pending" true;
         DeployCall false;
         PatchStatus (Meta.name (WebApp.metadata i)) (Meta.namespace (WebApp.metadata i))
           None (patchStatusOk env 1);
         eventOf i "Failed" true ].
Proof.
  intros Hst Hg Hd He0 He1.
  destruct i as [m sp st]. simpl in Hst. subst st.
  enter_run Hg. repeat branch; try congruence;
    unfold ledger, patchOf, eventOf; cbn; repeat split.
Qed.

End ReconcileFacts.

Section ReconcileClaims.
Import Reconciler.




(** C2 fails on the code.  On the instance
    [{generation: 2, conditions: [Ready at observedGeneration 1]}] with a
    generator that fails, the callback appends the Pending condition,
    persists it, emits the "Pending" event and calls the generator; the
    handler then raises a TypeError while it computes the
    observedGeneration of the Failed condition.  No Failed condition is
    appended, no further status patch and no "Failed" event is issued. *)
Theorem C2_failed_condition_never_recorded :
  fst (run Examples.brokenDeploy Examples.readyAtOne)
  = JS.Throw (JS.TypeError "observedGeneration")
  /\ ledger (snd (run Examples.brokenDeploy Examples.readyAtOne))
     = [Examples.readyCondition; Examples.pendingAtTwo]
  /\ effects (snd (run Examples.brokenDeploy Examples.readyAtOne)) =
       [ patchOf Examples.readyAtOne [Examples.readyCondition; Examples.pendingAtTwo] true;
         eventOf Examples.readyAtOne "Pending" true;
         DeployCall false;
         LogError "Deployment failed for english-light" ].
Proof. repeat split. Qed.

(** C8: on an instance whose generation differs from the
    observedGeneration of its last Condition, and whose last Condition is
    neither Pending nor of reason "Processing", a cycle in which the
    generator and the event writes succeed appends exactly two Conditions,
    Pending/"Processing" then Ready/"Reconciled", both with
    observedGeneration = generation, and issues, in this order: the status
    patch with the ledger up to Pending, the "Pending" event, the
    deployment, the status patch with the ledger up to Ready, and the
    "Reconciled" event. *)
Theorem C8_successful_cycle_appends_pending_then_ready
    (env : Env) (i : WebApp.t) (cs : list Condition.t) (c : Condition.t) :
  WebApp.status i = Some {| Status.conditions := Some cs |} ->
  last cs = Some c ->
  Meta.generation (WebApp.metadata i) <> Condition.observedGeneration c ->
  Condition.status c <> "Pending" ->
  Condition.reason c <> "Processing" ->
  deployOk env = true -> writeEventOk env 0 = true -> writeEventOk env 1 = true ->
  fst (run env i) = JS.Normal tt
  /\ ledger (snd (run env i)) =
       cs ++ [ Pending (Meta.generation (WebApp.metadata i)) (now env 0);
               Ready (Meta.generation (WebApp.metadata i)) (now env 1) ]
  /\ cluster (effects (snd (run env i))) =
       [ patchOf i (cs ++ [Pending (Meta.generation (WebApp.metadata i)) (now env 0)])
           (patchStatusOk env 0);
         eventOf i "Pending" true;
         DeployCall true;
         patchOf i
           (cs ++ [ Pending (Meta.generation (WebApp.metadata i)) (now env 0);
                    Ready (Meta.generation (WebApp.metadata i)) (now env 1) ])
           (patchStatusOk env 1);
         eventOf i "Reconciled" true ].
Proof.
  intros Hst Hlast Hgen Hpend Hproc Hd He0 He1.
  assert (Hg : shouldDeploy i = JS.Normal true).
  { rewrite (shouldDeploy_last i cs c Hst Hlast). f_equal.
    apply andb_true_iff. split; apply negb_true_iff.
    - apply not_true_iff_false. rewrite strictEq_spec. exact Hgen.
    - apply orb_false_iff. split; apply String.eqb_neq; assumption. }
  pose proof (run_success env i Hg Hd He0 He1) as H.
  unfold ledger0, ledger, initial in H. simpl in H. rewrite Hst in H. exact H.
Qed.

Lemma C8_successful_cycle_appends_pending_then_ready_witness :
  fst (run Examples.calm Examples.readyAtOne) = JS.Normal tt
  /\ ledger (snd (run Examples.calm Examples.readyAtOne))
     = [Examples.readyCondition; Examples.pendingAtTwo; Examples.readyAtTwo]
  /\ cluster (effects (snd (run Examples.calm Examples.readyAtOne))) =
       [ patchOf Examples.readyAtOne [Examples.readyCondition; Examples.pendingAtTwo] true;
         eventOf Examples.readyAtOne "Pending" true;
         DeployCall true;
         patchOf Examples.readyAtOne
           [Examples.readyCondition; Examples.pendingAtTwo; Examples.readyAtTwo] true;
         eventOf Examples.readyAtOne "Reconciled" true ].
Proof.
  apply (C8_successful_cycle_appends_pending_then_ready Examples.calm
           Examples.readyAtOne [Examples.readyCondition] Examples.readyCondition);
    first [reflexivity | discriminate].
Defined.

(** C9 fails on the code.  On an instance whose status carries an empty
    conditions array the callback raises a TypeError while it reads
    [observedGeneration] at index [length - 1], before the fallback to the
    empty condition; nothing is appended and no call is issued. *)
Theorem C9_empty_conditions_array_faults :
  run Examples.calm Examples.emptyLedger
  = (JS.Throw (JS.TypeError "observedGeneration"), initial Examples.emptyLedger).
Proof. reflexivity. Qed.

End ReconcileClaims.

(** * Further properties of the callbacks *)

(** ** The WebApp admission callbacks *)

Section WebAppMore.
Import WebAppGate.

(** Neither callback result depends on the annotations. *)
Lemma isPending_SetAnnotation k v wa : isPending (SetAnnotation k v wa) = isPending wa.
Proof. reflexivity. Qed.

Lemma isPending_Mutate t wa : isPending (Mutate t wa) = isPending wa.
Proof. unfold Mutate. destruct (isPending wa) eqn:Hp; [exact Hp|]. exact Hp. Qed.

(** X1: when the last Condition is not Pending, Mutate records its
    timestamp under ["pepr.dev/latest-admission-pass"], keeps every other
    annotation, and leaves name, namespace, generation, spec and status
    as they were. *)
Theorem X1_mutate_stamps_only_the_annotation (nowISO : string) (wa : WebApp.t) :
  ~ lastConditionPending wa ->
  Meta.annotations (WebApp.metadata (Mutate nowISO wa)) !! "pepr.dev/latest-admission-pass"
  = Some nowISO
  /\ (forall k, k <> "pepr.dev/latest-admission-pass" ->
        Meta.annotations (WebApp.metadata (Mutate nowISO wa)) !! k
        = Meta.annotations (WebApp.metadata wa) !! k)
  /\ Meta.name (WebApp.metadata (Mutate nowISO wa)) = Meta.name (WebApp.metadata wa)
  /\ Meta.namespace (WebApp.metadata (Mutate nowISO wa)) = Meta.namespace (WebApp.metadata wa)
  /\ Meta.generation (WebApp.metadata (Mutate nowISO wa))
     = Meta.generation (WebApp.metadata wa)
  /\ WebApp.spec (Mutate nowISO wa) = WebApp.spec wa
  /\ WebApp.status (Mutate nowISO wa) = WebApp.status wa.
Proof.
  intros Hnp. apply isPending_false in Hnp.
  unfold Mutate. rewrite Hnp. simpl.
  split; [apply lookup_insert_eq|].
  split; [|repeat split].
  intros k Hk. apply lookup_insert_ne. congruence.
Qed.

Lemma X1_mutate_stamps_only_the_annotation_witness :
  ~ lastConditionPending Examples.readyInvalid
  /\ Meta.annotations
       (WebApp.metadata (Mutate "2026-11-02T00:00:00.000Z" Examples.readyInvalid))
       !! "pepr.dev/latest-admission-pass"
     = Some "2026-11-02T00:00:00.000Z"
  /\ WebApp.spec (Mutate "2026-11-02T00:00:00.000Z" Examples.readyInvalid)
     = Some Examples.invalidSpec.
Proof.
  assert (H : ~ lastConditionPending Examples.readyInvalid).
  { intros (cs & c & Hst & Hlast & Hc).
    injection Hst as <-. injection Hlast as <-. discriminate Hc. }
  split; [exact H|].
  pose proof (X1_mutate_stamps_only_the_annotation
                "2026-11-02T00:00:00.000Z" Examples.readyInvalid H) as HX.
  split; [exact (proj1 HX) | exact (proj1 (proj2 (proj2 (proj2 (proj2 (proj2 HX))))))].
Defined.

(** X2: the last admission pass wins.  Mutating twice is mutating once
    with the later timestamp, whatever the instance; in particular Mutate
    with one timestamp is idempotent. *)
Theorem X2_mutate_last_pass_wins (t1 t2 : string) (wa : WebApp.t) :
  Mutate t2 (Mutate t1 wa) = Mutate t2 wa.
Proof.
  unfold Mutate at 1. rewrite isPending_Mutate.
  unfold Mutate. destruct (isPending wa); [reflexivity|].
  unfold SetAnnotation. simpl. rewrite insert_insert_eq. reflexivity.
Qed.

(** X3: the decision of Validate does not depend on Mutate having run:
    Mutate touches neither the spec nor the status. *)
Theorem X3_validate_ignores_mutate (nowISO : string) (wa : WebApp.t) :
  Validate (Mutate nowISO wa) = Validate wa.
Proof.
  unfold Validate. rewrite isPending_Mutate.
  destruct (isPending wa) eqn:Hp; [reflexivity|].
  unfold Mutate. rewrite Hp. reflexivity.
Qed.

End WebAppMore.

(** ** The pod security callbacks *)

Section PodMore.
Import PodGate Readings.

Lemma violatesPolicy_spec c :
  violatesPolicy c = true <-> apeOf c <> Some false \/ privilegedOf c = Some true.
Proof.
  unfold violatesPolicy.
  destruct (apeOf c) as [[|]|], (privilegedOf c) as [[|]|]; simpl;
    split; intros H; try reflexivity; try discriminate;
    try (left; discriminate); try (right; reflexivity);
    destruct H as [H|H]; congruence.
Qed.

(** X4: on a pod whose containers all carry a securityContext, Validate
    returns its decision: the 403 denial when some container has
    allowPrivilegeEscalation other than false (true or unset) or privileged
    true, Approve otherwise. *)
Theorem X4_validate_decides_with_security_contexts (request : PodRequest) :
  Forall (fun c => securityContext c <> None) (containers request) ->
  (Exists (fun c => apeOf c <> Some false \/ privilegedOf c = Some true) (containers request)
   -> Validate request = JS.Normal (Deny "Privilege escalation is disallowed" 403 None))
  /\ (Forall (fun c => apeOf c = Some false /\ privilegedOf c <> Some true) (containers request)
      -> Validate request = JS.Normal Approve).
Proof.
  intros Hsc. rewrite (Validate_decides request Hsc). split.
  - intros Hex. apply Exists_exists in Hex as (c & Hin & Hc).
    replace (existsb violatesPolicy (containers request)) with true; [reflexivity|].
    symmetry. apply existsb_exists. exists c. split.
    + apply list_elem_of_In, Hin.
    + apply violatesPolicy_spec, Hc.
  - intros Hall.
    replace (existsb violatesPolicy (containers request)) with false; [reflexivity|].
    symmetry. apply not_true_iff_false. intros Hex.
    apply existsb_exists in Hex as (c & Hin & Hc).
    apply violatesPolicy_spec in Hc.
    rewrite Forall_forall in Hall.
    destruct (Hall c (proj2 (list_elem_of_In _ _) Hin)) as [Ha Hp].
    destruct Hc as [Hc|Hc]; congruence.
Qed.

Lemma X4_validate_decides_with_security_contexts_witness :
  Validate {| Raw := [noEscalation; privilegedContainer] |}
  = JS.Normal (Deny "Privilege escalation is disallowed" 403 None).
Proof.
  apply (X4_validate_decides_with_security_contexts
           {| Raw := [noEscalation; privilegedContainer] |}).
  - repeat constructor; discriminate.
  - apply Exists_cons_tl, Exists_cons_hd. right. reflexivity.
Defined.

(** X5: one container without a securityContext makes Validate raise,
    wherever it stands in the pod and whatever the other containers ask
    for: no denial is returned even when another container is privileged. *)
Theorem X5_validate_raises_on_any_bare_container (request : PodRequest) (c : Container) :
  In c (containers request) ->
  securityContext c = None ->
  Validate request = JS.Throw (JS.TypeError "allowPrivilegeEscalation").
Proof. apply Validate_faults. Qed.

Lemma X5_validate_raises_on_any_bare_container_witness :
  Validate {| Raw := [privilegedContainer; Examples.bare] |}
  = JS.Throw (JS.TypeError "allowPrivilegeEscalation").
Proof.
  apply (X5_validate_raises_on_any_bare_container
           {| Raw := [privilegedContainer; Examples.bare] |} Examples.bare).
  - right. left. reflexivity.
  - reflexivity.
Defined.

Lemma isViolation_same c1 c2 :
  sameEscalationFields c1 c2 -> isViolation c1 = isViolation c2.
Proof.
  unfold sameEscalationFields, isViolation, apeOf, privilegedOf.
  intros (Hsc & Ha & Hp).
  destruct (securityContext c1) as [sc1|], (securityContext c2) as [sc2|].
  - rewrite Ha, Hp. reflexivity.
  - exfalso. assert (H : Some sc1 = None) by (apply Hsc; reflexivity). discriminate H.
  - exfalso. assert (H : Some sc2 = None) by (apply Hsc; reflexivity). discriminate H.
  - reflexivity.
Qed.

Lemma filter_isViolation_same l1 l2 :
  Forall2 sameEscalationFields l1 l2 ->
  JS.bind (JS.filter isViolation l1) (fun v => JS.Normal (JS.length v))
  = JS.bind (JS.filter isViolation l2) (fun v => JS.Normal (JS.length v)).
Proof.
  induction 1 as [|c1 c2 l1 l2 Hc _ IH]; [reflexivity|].
  simpl. rewrite (isViolation_same c1 c2 Hc).
  destruct (isViolation c2) as [keep|e]; [|reflexivity]. simpl.
  destruct (JS.filter isViolation l1) as [k1|e1], (JS.filter isViolation l2) as [k2|e2];
    simpl in *; try congruence.
  injection IH as IH. unfold JS.length in *.
  destruct keep; simpl; [|congruence].
  f_equal. lia.
Qed.

(** X6: Validate reads nothing but allowPrivilegeEscalation and privileged.
    Two pods whose containers agree, one by one, on these two fields (and
    on having a securityContext) get the same answer, whatever their
    capabilities: the added capability set is not checked. *)
Theorem X6_validate_reads_two_fields_only (r1 r2 : PodRequest) :
  Forall2 sameEscalationFields (containers r1) (containers r2) ->
  Validate r1 = Validate r2.
Proof.
  intros H. apply filter_isViolation_same in H.
  unfold Validate.
  destruct (JS.filter isViolation (containers r1)) as [v1|e1],
           (JS.filter isViolation (containers r2)) as [v2|e2];
    simpl in *; try congruence.
  injection H as H. rewrite H. reflexivity.
Qed.

Lemma X6_validate_reads_two_fields_only_witness :
  Forall2 sameEscalationFields [sysAdminNoEscalation] [noEscalation]
  /\ Validate {| Raw := [sysAdminNoEscalation] |} = JS.Normal Approve.
Proof.
  assert (H : Forall2 sameEscalationFields [sysAdminNoEscalation] [noEscalation]).
  { repeat constructor; discriminate. }
  split; [exact H|].
  exact (X6_validate_reads_two_fields_only
           {| Raw := [sysAdminNoEscalation] |} {| Raw := [noEscalation] |} H).
Defined.

(** X7: Mutate keeps the containers of the pod, in number and order, with
    their name, image, privileged, capabilities and runAsNonRoot; it never
    changes an allowPrivilegeEscalation that the request states, and never
    sets one to true. *)
Theorem X7_pod_mutate_touches_one_field (request : PodRequest) :
  Forall2
    (fun c c' =>
       name c' = name c /\ image c' = image c
       /\ privilegedOf c' = privilegedOf c
       /\ capabilitiesOf c' = capabilitiesOf c
       /\ runAsNonRootOf c' = runAsNonRootOf c
       /\ (apeOf c <> None -> apeOf c' = apeOf c)
       /\ (apeOf c = None -> apeOf c' <> Some true))
    (containers request) (containers (Mutate request)).
Proof.
  unfold Mutate, containers. simpl.
  induction (Raw request) as [|c l IH]; simpl; constructor; [|exact IH].
  rewrite mutateContainer_cases.
  destruct (meetsCriteria c) eqn:Hc.
  - pose proof (meetsCriteria_unset _ Hc) as Hunset.
    destruct c as [n img [sc|]]; repeat split; simpl; try congruence;
      intros _; rewrite defaulted_ape; discriminate.
  - repeat split; congruence.
Qed.

End PodMore.

(** ** The Reconcile callback *)

Section ReconcileMore.
Import Reconciler Readings.

Arguments failedObservedGeneration : simpl never.
Arguments shouldDeploy : simpl never.

Ltac start_run Hg :=
  unfold run, Reconcile, bind, lift, readInstance, tryCatch;
  cbv beta iota delta [initial instance];
  rewrite Hg; cbn; unfold setConditions; cbn.

(** The outcome of the next awaited call: the one a hypothesis fixes, or
    both. *)
Ltac next_call :=
  match goal with
  | H : patchStatusOk ?env ?n = _ |- context [patchStatusOk ?env ?n] => rewrite H
  | H : writeEventOk ?env ?n = _ |- context [writeEventOk ?env ?n] => rewrite H
  | H : deployOk ?env = _ |- context [deployOk ?env] => rewrite H
  | |- context [patchStatusOk ?env ?n] => destruct (patchStatusOk env n) eqn:?
  | |- context [writeEventOk ?env ?n] => destruct (writeEventOk env n) eqn:?
  | |- context [deployOk ?env] => destruct (deployOk env) eqn:?
  end;
  cbn; unfold setConditions; cbn;
  rewrite ?failedObservedGeneration_own, ?failedObservedGeneration_absent; cbn.

Ltac all_calls := repeat next_call; try congruence.

(** Name the result of the invocation, so that it is evaluated once. *)
Ltac run_once :=
  match goal with
  | |- context [run ?env ?i] =>
      let r := fresh "r" in
      let Hr := fresh "Hr" in
      remember (run env i) as r eqn:Hr; revert Hr
  end.

(** The guard on an instance with a last Condition, as a proposition. *)
Lemma shouldDeploy_last_false i cs c :
  WebApp.status i = Some {| Status.conditions := Some cs |} ->
  last cs = Some c ->
  shouldDeploy i = JS.Normal false
  <-> (Meta.generation (WebApp.metadata i) = Condition.observedGeneration c
       \/ Condition.status c = "Pending" \/ Condition.reason c = "Processing").
Proof.
  intros Hst Hlast. rewrite (shouldDeploy_last i cs c Hst Hlast).
  split.
  - intros H. injection H as H. apply andb_false_iff in H as [H|H].
    + left. apply strictEq_spec. apply negb_false_iff, H.
    + right. apply negb_false_iff, orb_true_iff in H as [H|H];
        apply String.eqb_eq in H; auto.
  - intros [H|[H|H]]; f_equal.
    + rewrite H, strictEq_refl. reflexivity.
    + rewrite H. apply andb_false_r.
    + rewrite H. simpl. rewrite orb_true_r. apply andb_false_r.
Qed.

(** A cycle starts with the status patch that carries the Pending
    condition. *)
Lemma fired_patches_first env i :
  shouldDeploy i = JS.Normal true ->
  exists ok rest,
    cluster (effects (snd (run env i)))
    = patchOf i (ledger0 i ++ [pendingCondition (Meta.generation (WebApp.metadata i))
                                 (now env 0)]) ok :: rest.
Proof.
  intros Hg. destruct i as [m sp [[[cs|]]|]].
  - start_run Hg. all_calls; unfold patchOf, ledger0, ledger; cbn; eauto.
  - rewrite shouldDeploy_no_conditions in Hg by reflexivity. discriminate Hg.
  - start_run Hg. all_calls; unfold patchOf, ledger0, ledger; cbn; eauto.
Qed.

(** X8: on an instance with a last Condition, Reconcile reaches the
    cluster (patch, event or deployment) unless the generation equals the
    observedGeneration of the last Condition, or that Condition has status
    Pending or reason "Processing"; and when it does not, it returns
    normally and leaves the instance and its ledger as they were.  So a
    generation bump is ignored while the last Condition is Pending, and a
    Failed condition is retried only on a generation other than the one it
    observed. *)
Theorem X8_reconcile_acts_exactly_when_guard_open
    (env : Env) (i : WebApp.t) (cs : list Condition.t) (c : Condition.t) :
  WebApp.status i = Some {| Status.conditions := Some cs |} ->
  last cs = Some c ->
  (cluster (effects (snd (run env i))) = []
   <-> (Meta.generation (WebApp.metadata i) = Condition.observedGeneration c
        \/ Condition.status c = "Pending" \/ Condition.reason c = "Processing"))
  /\ (cluster (effects (snd (run env i))) = [] ->
      fst (run env i) = JS.Normal tt
      /\ instance (snd (run env i)) = i
      /\ ledger (snd (run env i)) = cs).
Proof.
  intros Hst Hlast.
  pose proof (shouldDeploy_last_false i cs c Hst Hlast) as Hiff.
  destruct (shouldDeploy i) as [[|]|e] eqn:Hg.
  - destruct (fired_patches_first env i Hg) as (ok & rest & Hfirst).
    rewrite Hfirst. split.
    + split; [discriminate|]. intros H. apply Hiff in H. discriminate H.
    + discriminate.
  - destruct (run_skip env i Hg) as (Hr & Hi & Hf & Hc & _).
    split.
    + split; [intros _; apply Hiff; reflexivity | intros _; exact Hc].
    + intros _. repeat split; [exact Hr | exact Hi |].
      unfold ledger. rewrite Hi, Hst. reflexivity.
  - rewrite (shouldDeploy_last i cs c Hst Hlast) in Hg. discriminate Hg.
Qed.

Lemma X8_reconcile_acts_exactly_when_guard_open_witness :
  cluster (effects (snd (run Examples.calm wedged))) = []
  /\ fst (run Examples.calm wedged) = JS.Normal tt.
Proof.
  pose proof (X8_reconcile_acts_exactly_when_guard_open Examples.calm wedged
                [Examples.readyCondition; Examples.pendingAtTwo] Examples.pendingAtTwo
                eq_refl eq_refl) as [Hiff Hquiet].
  assert (H : cluster (effects (snd (run Examples.calm wedged))) = []).
  { apply Hiff. right. left. reflexivity. }
  split; [exact H | exact (proj1 (Hquiet H))].
Defined.

(** X9: a status object that has no conditions array, or an empty one,
    makes Reconcile raise a TypeError while it reads its inputs, whatever
    the generation: it issues no call and changes nothing. *)
Theorem X9_status_without_conditions_raises (env : Env) (m : Meta.t) (sp : option Spec.t) :
  run env {| WebApp.metadata := m; WebApp.spec := sp;
             WebApp.status := Some {| Status.conditions := None |} |}
  = (JS.Throw (JS.TypeError "length"),
     initial {| WebApp.metadata := m; WebApp.spec := sp;
                WebApp.status := Some {| Status.conditions := None |} |})
  /\ run env {| WebApp.metadata := m; WebApp.spec := sp;
                WebApp.status := Some {| Status.conditions := Some [] |} |}
     = (JS.Throw (JS.TypeError "observedGeneration"),
        initial {| WebApp.metadata := m; WebApp.spec := sp;
                   WebApp.status := Some {| Status.conditions := Some [] |} |}).
Proof.
  split.
  - apply run_throw, shouldDeploy_no_conditions. reflexivity.
  - apply run_empty_conditions. reflexivity.
Qed.

(** X10: the first reconciliation.  On an instance without status the
    callback does nothing when the generation is undefined; otherwise,
    when the generator and the event writes succeed, it sends the ledgers
    [Pending] and [Pending; Ready] to the store from an array of its own:
    the instance object it was given still has no status afterwards. *)
Theorem X10_first_reconcile_builds_its_own_ledger (env : Env) (i : WebApp.t) :
  WebApp.status i = None ->
  (Meta.generation (WebApp.metadata i) = None ->
   fst (run env i) = JS.Normal tt
   /\ cluster (effects (snd (run env i))) = []
   /\ instance (snd (run env i)) = i)
  /\ (Meta.generation (WebApp.metadata i) <> None ->
      deployOk env = true -> writeEventOk env 0 = true -> writeEventOk env 1 = true ->
      fst (run env i) = JS.Normal tt
      /\ instance (snd (run env i)) = i
      /\ ledger (snd (run env i)) =
           [ Pending (Meta.generation (WebApp.metadata i)) (now env 0);
             Ready (Meta.generation (WebApp.metadata i)) (now env 1) ]
      /\ cluster (effects (snd (run env i))) =
           [ patchOf i [Pending (Meta.generation (WebApp.metadata i)) (now env 0)]
               (patchStatusOk env 0);
             eventOf i "Pending" true;
             DeployCall true;
             patchOf i [ Pending (Meta.generation (WebApp.metadata i)) (now env 0);
                         Ready (Meta.generation (WebApp.metadata i)) (now env 1) ]
               (patchStatusOk env 1);
             eventOf i "Reconciled" true ]).
Proof.
  intros Hst. pose proof (shouldDeploy_absent i Hst) as Hg.
  destruct i as [m sp st]. simpl in Hst. subst st. simpl in *.
  split.
  - intros Hgen. rewrite Hgen in Hg. simpl in Hg.
    destruct (run_skip env _ Hg) as (Hr & Hi & _ & Hc & _). auto.
  - intros Hgen Hd He0 He1.
    destruct (Meta.generation m) as [g|] eqn:Hm; [|congruence]. simpl in Hg.
    run_once. start_run Hg. repeat next_call; intros ->;
      unfold ledger, patchOf, eventOf; cbn; rewrite ?Hm; repeat split.
Qed.

Lemma X10_first_reconcile_builds_its_own_ledger_witness :
  fst (run Examples.calm created) = JS.Normal tt
  /\ instance (snd (run Examples.calm created)) = created
  /\ ledger (snd (run Examples.calm created)) =
       [ Pending (Some 1) 1700000000000; Ready (Some 1) 1700000000001 ].
Proof.
  pose proof (proj2 (X10_first_reconcile_builds_its_own_ledger Examples.calm created eq_refl))
    as H.
  destruct H as (H1 & H2 & H3 & _); try reflexivity; [discriminate|].
  split; [exact H1|]. split; [exact H2 | exact H3].
Defined.

Ltac solve_prefix :=
  rewrite <- ?app_assoc;
  first [ reflexivity | apply prefix_nil | apply prefix_app_r; reflexivity ].

(** X11: the ledger is append-only within an invocation.  Whatever the
    instance and the outcome of the calls, Reconcile leaves metadata and
    spec alone, ends with a ledger that extends the one it started from by
    at most three Conditions, and every status patch that carries a
    conditions array carries an extension of the initial ledger. *)
Theorem X11_reconcile_only_appends (env : Env) (i : WebApp.t) :
  WebApp.metadata (instance (snd (run env i))) = WebApp.metadata i
  /\ WebApp.spec (instance (snd (run env i))) = WebApp.spec i
  /\ ledger0 i `prefix_of` ledger (snd (run env i))
  /\ (List.length (ledger (snd (run env i))) <= List.length (ledger0 i) + 3)%nat
  /\ Forall (extends (ledger0 i)) (effects (snd (run env i))).
Proof.
  run_once.
  destruct (shouldDeploy i) as [[|]|e] eqn:Hg; destruct i as [m sp [[[cs|]]|]];
    start_run Hg; repeat next_call; intros ->; unfold ledger0, ledger, extends; cbn;
    (split; [reflexivity|]); (split; [reflexivity|]);
    (split; [solve_prefix|]);
    (split; [rewrite ?length_app; simpl; lia|]);
    repeat constructor; solve_prefix.
Qed.

(** X12: a failed deployment on an instance that has a conditions array.
    When the guard fires, the "Pending" event is written and the generator
    fails, the handler raises a TypeError (its index is one past the end of
    the array): the invocation rejects with the ledger ending in the
    Pending condition, and neither a Failed condition, nor a second status
    patch, nor a "Failed" event follows. *)
Theorem X12_failure_handler_raises_on_own_ledger
    (env : Env) (i : WebApp.t) (cs : list Condition.t) (c : Condition.t) :
  WebApp.status i = Some {| Status.conditions := Some cs |} ->
  last cs = Some c ->
  Meta.generation (WebApp.metadata i) <> Condition.observedGeneration c ->
  Condition.status c <> "Pending" ->
  Condition.reason c <> "Processing" ->
  deployOk env = false -> writeEventOk env 0 = true ->
  fst (run env i) = JS.Throw (JS.TypeError "observedGeneration")
  /\ ledger (snd (run env i)) =
       cs ++ [Pending (Meta.generation (WebApp.metadata i)) (now env 0)]
  /\ cluster (effects (snd (run env i))) =
       [ patchOf i (cs ++ [Pending (Meta.generation (WebApp.metadata i)) (now env 0)])
           (patchStatusOk env 0);
         eventOf i "Pending" true;
         DeployCall false ].
Proof.
  intros Hst Hlast Hgen Hpend Hproc Hd He0.
  assert (Hg : shouldDeploy i = JS.Normal true).
  { destruct (shouldDeploy i) as [[|]|e] eqn:Hg; [reflexivity| |].
    - apply (shouldDeploy_last_false i cs c Hst Hlast) in Hg. tauto.
    - rewrite (shouldDeploy_last i cs c Hst Hlast) in Hg. discriminate Hg. }
  exact (run_failure_own env i cs Hst Hg Hd He0).
Qed.

Lemma X12_failure_handler_raises_on_own_ledger_witness :
  fst (run Examples.brokenDeploy readyAtTwoThenThree)
  = JS.Throw (JS.TypeError "observedGeneration").
Proof.
  apply (X12_failure_handler_raises_on_own_ledger Examples.brokenDeploy readyAtTwoThenThree
           [Examples.readyCondition; Examples.pendingAtTwo; Examples.readyAtTwo]
           Examples.readyAtTwo);
    first [reflexivity | discriminate].
Defined.

(** X13: a failed deployment on an instance without status.  The handler
    pushes the Failed condition, with an undefined observedGeneration, on
    the callback's own array, sends [instance.status], which is still
    undefined, as the status to patch, and writes the "Failed" event: the
    ledger with the Failed condition never reaches the store. *)
Theorem X13_failure_on_first_reconcile_is_not_stored (env : Env) (i : WebApp.t) :
  WebApp.status i = None ->
  Meta.generation (WebApp.metadata i) <> None ->
  deployOk env = false -> writeEventOk env 0 = true -> writeEventOk env 1 = true ->
  fst (run env i) = JS.Normal tt
  /\ instance (snd (run env i)) = i
  /\ ledger (snd (run env i)) =
       [ Pending (Meta.generation (WebApp.metadata i)) (now env 0);
         {| Condition.observedGeneration := None;
            Condition.lastTransitionTime := Some (now env 1);
            Condition.reason := "Could not reconcile"; Condition.status := "Failed" |} ]
  /\ cluster (effects (snd (run env i))) =
       [ patchOf i [Pending (Meta.generation (WebApp.metadata i)) (now env 0)]
           (patchStatusOk env 0);
         eventOf i "Pending" true;
         DeployCall false;
         PatchStatus (Meta.name (WebApp.metadata i)) (Meta.namespace (WebApp.metadata i))
           None (patchStatusOk env 1);
         eventOf i "Failed" true ]
  /\ (patchStatusOk env 0 = true ->
      persisted None (effects (snd (run env i)))
      = Some {| Status.conditions :=
                  Some [Pending (Meta.generation (WebApp.metadata i)) (now env 0)] |}).
Proof.
  intros Hst Hgen Hd He0 He1. pose proof (shouldDeploy_absent i Hst) as Hg.
  destruct i as [m sp st]. simpl in Hst. subst st. simpl in *.
  destruct (Meta.generation m) as [g|] eqn:Hm; [|congruence]. simpl in Hg.
  run_once. start_run Hg. repeat next_call; intros ->;
    unfold ledger, patchOf, eventOf, persisted; cbn; rewrite ?Hm;
    repeat split; discriminate.
Qed.

Lemma X13_failure_on_first_reconcile_is_not_stored_witness :
  fst (run Examples.brokenDeploy created) = JS.Normal tt
  /\ persisted None (effects (snd (run Examples.brokenDeploy created)))
     = Some {| Status.conditions := Some [Pending (Some 1) 1700000000000] |}.
Proof.
  destruct (X13_failure_on_first_reconcile_is_not_stored Examples.brokenDeploy created)
    as (H1 & _ & _ & _ & H5); try reflexivity; [discriminate|].
  split; [exact H1 | exact (H5 eq_refl)].
Defined.

(** The stored ledger after a failed deployment ends with Pending. *)
Lemma failed_persisted env i :
  shouldDeploy i = JS.Normal true ->
  deployOk env = false -> writeEventOk env 0 = true -> patchStatusOk env 0 = true ->
  persisted (WebApp.status i) (effects (snd (run env i)))
  = Some {| Status.conditions :=
              Some (ledger0 i ++ [pendingCondition (Meta.generation (WebApp.metadata i))
                                    (now env 0)]) |}.
Proof.
  intros Hg Hd He0 Hp0. destruct i as [m sp [[[cs|]]|]].
  - start_run Hg. all_calls.
  - rewrite shouldDeploy_no_conditions in Hg by reflexivity. discriminate Hg.
  - start_run Hg. all_calls.
Qed.

(** X14: a failed deployment wedges the instance.  Once a cycle whose
    generator failed has stored its Pending condition, the stored instance
    ends with Pending: every later invocation on it, for any generation
    and any spec, returns without reaching the cluster, and the admission
    callback Validate approves it whatever its spec says. *)
Theorem X14_failed_deployment_wedges_instance (env1 env2 : Env) (i i2 : WebApp.t) :
  shouldDeploy i = JS.Normal true ->
  deployOk env1 = false -> writeEventOk env1 0 = true -> patchStatusOk env1 0 = true ->
  WebApp.status i2 = persisted (WebApp.status i) (effects (snd (run env1 i))) ->
  WebAppGate.lastConditionPending i2
  /\ fst (run env2 i2) = JS.Normal tt
  /\ cluster (effects (snd (run env2 i2))) = []
  /\ ledger (snd (run env2 i2)) = ledger0 i2
  /\ WebAppGate.Validate i2 = JS.Normal Approve.
Proof.
  intros Hg Hd He0 Hp0 Hst.
  rewrite (failed_persisted env1 i Hg Hd He0 Hp0) in Hst.
  assert (Hpending : WebAppGate.lastConditionPending i2).
  { eexists _, _. split; [exact Hst|]. split; [apply last_snoc | reflexivity]. }
  assert (Hg2 : shouldDeploy i2 = JS.Normal false).
  { eapply shouldDeploy_last_false; [exact Hst | apply last_snoc |].
    right. left. reflexivity. }
  destruct (run_skip env2 i2 Hg2) as (Hr & Hi & Hf & Hc & _).
  repeat split; try assumption.
  - unfold ledger0, ledger. rewrite Hi, Hf. reflexivity.
  - unfold WebAppGate.Validate.
    rewrite (proj2 (isPending_spec i2) Hpending). reflexivity.
Qed.

Lemma X14_failed_deployment_wedges_instance_witness :
  WebAppGate.lastConditionPending wedged
  /\ fst (run Examples.calm wedged) = JS.Normal tt
  /\ cluster (effects (snd (run Examples.calm wedged))) = []
  /\ ledger (snd (run Examples.calm wedged)) = ledger0 wedged
  /\ WebAppGate.Validate wedged = JS.Normal Approve.
Proof.
  apply (X14_failed_deployment_wedges_instance Examples.brokenDeploy Examples.calm
           Examples.readyAtOne wedged); reflexivity.
Defined.

(** X15: status writes are best effort.  An invocation completes, mutates
    the instance, builds its ledger and issues its calls exactly as it
    would if every status patch had resolved: a rejected patch is caught
    inside [updateStatus] and changes nothing but the log. *)
Theorem X15_rejected_status_patches_change_nothing_else (env : Env) (i : WebApp.t) :
  fst (run env i) = fst (run (patchesResolve env) i)
  /\ instance (snd (run env i)) = instance (snd (run (patchesResolve env) i))
  /\ ledger (snd (run env i)) = ledger (snd (run (patchesResolve env) i))
  /\ map eraseResolved (cluster (effects (snd (run env i))))
     = cluster (effects (snd (run (patchesResolve env) i))).
Proof.
  unfold patchesResolve.
  run_once. run_once.
  destruct (shouldDeploy i) as [[|]|e] eqn:Hg; destruct i as [m sp [[[cs|]]|]];
    start_run Hg; repeat next_call; intros -> ->; unfold ledger; cbn; repeat split.
Qed.

(** X16: when the guard fires and the "Pending" event cannot be written,
    the invocation rejects with that failure: the Pending condition has
    been appended and sent to the store, the generator is not called, and
    nothing brings the ledger out of Pending. *)
Theorem X16_lost_pending_event_stops_the_cycle (env : Env) (i : WebApp.t) :
  shouldDeploy i = JS.Normal true ->
  writeEventOk env 0 = false ->
  fst (run env i) = JS.Throw (JS.Rejected "writeEvent")
  /\ ledger (snd (run env i)) =
       ledger0 i ++ [Pending (Meta.generation (WebApp.metadata i)) (now env 0)]
  /\ cluster (effects (snd (run env i))) =
       [ patchOf i (ledger0 i ++ [Pending (Meta.generation (WebApp.metadata i)) (now env 0)])
           (patchStatusOk env 0);
         eventOf i "Pending" false ].
Proof.
  intros Hg He0. destruct i as [m sp [[[cs|]]|]].
  - run_once. start_run Hg. repeat next_call; intros ->;
      unfold ledger0, ledger, patchOf, eventOf; cbn; repeat split.
  - rewrite shouldDeploy_no_conditions in Hg by reflexivity. discriminate Hg.
  - run_once. start_run Hg. repeat next_call; intros ->;
      unfold ledger0, ledger, patchOf, eventOf; cbn; repeat split.
Qed.

Lemma X16_lost_pending_event_stops_the_cycle_witness :
  fst (run lostPendingEvent Examples.readyAtOne) = JS.Throw (JS.Rejected "writeEvent")
  /\ ledger (snd (run lostPendingEvent Examples.readyAtOne))
     = [Examples.readyCondition; Examples.pendingAtTwo].
Proof.
  destruct (X16_lost_pending_event_stops_the_cycle lostPendingEvent Examples.readyAtOne)
    as (H1 & H2 & _); try reflexivity.
  split; [exact H1 | exact H2].
Defined.

(** X17: a lost "Reconciled" event is handled as a failed deployment.  On
    an instance without status, when the generator succeeds but the
    "Reconciled" event is rejected, the handler runs after the Ready
    condition was appended and stored: the ledger of the callback ends
    Pending, Ready, Failed, and a "Failed" event is written for a
    deployment that succeeded. *)
Theorem X17_lost_reconciled_event_marks_failed (env : Env) (i : WebApp.t) :
  WebApp.status i = None ->
  Meta.generation (WebApp.metadata i) <> None ->
  deployOk env = true ->
  writeEventOk env 0 = true -> writeEventOk env 1 = false -> writeEventOk env 2 = true ->
  fst (run env i) = JS.Normal tt
  /\ ledger (snd (run env i)) =
       [ Pending (Meta.generation (WebApp.metadata i)) (now env 0);
         Ready (Meta.generation (WebApp.metadata i)) (now env 1);
         {| Condition.observedGeneration := None;
            Condition.lastTransitionTime := Some (now env 2);
            Condition.reason := "Could not reconcile"; Condition.status := "Failed" |} ]
  /\ cluster (effects (snd (run env i))) =
       [ patchOf i [Pending (Meta.generation (WebApp.metadata i)) (now env 0)]
           (patchStatusOk env 0);
         eventOf i "Pending" true;
         DeployCall true;
         patchOf i [ Pending (Meta.generation (WebApp.metadata i)) (now env 0);
                     Ready (Meta.generation (WebApp.metadata i)) (now env 1) ]
           (patchStatusOk env 1);
         eventOf i "Reconciled" false;
         PatchStatus (Meta.name (WebApp.metadata i)) (Meta.namespace (WebApp.metadata i))
           None (patchStatusOk env 2);
         eventOf i "Failed" true ].
Proof.
  intros Hst Hgen Hd He0 He1 He2. pose proof (shouldDeploy_absent i Hst) as Hg.
  destruct i as [m sp st]. simpl in Hst. subst st. simpl in *.
  destruct (Meta.generation m) as [g|] eqn:Hm; [|congruence]. simpl in Hg.
  run_once. start_run Hg. repeat next_call; intros ->;
    unfold ledger, patchOf, eventOf; cbn; rewrite ?Hm; repeat split.
Qed.

Lemma X17_lost_reconciled_event_marks_failed_witness :
  fst (run lostReconciledEvent created) = JS.Normal tt
  /\ ledger (snd (run lostReconciledEvent created)) =
       [ Pending (Some 1) 1700000000000;
         Ready (Some 1) 1700000000001;
         {| Condition.observedGeneration := None;
            Condition.lastTransitionTime := Some 1700000000002;
            Condition.reason := "Could not reconcile"; Condition.status := "Failed" |} ].
Proof.
  destruct (X17_lost_reconciled_event_marks_failed lostReconciledEvent created)
    as (H1 & H2 & _); try reflexivity; [discriminate|].
  split; [exact H1 | exact H2].
Defined.

(** X18: on an instance that has a conditions array, a lost "Reconciled"
    event ends the invocation with the TypeError of the handler, not with
    the rejection of the event: the Ready condition stays last in the
    ledger that was sent to the store. *)
Theorem X18_lost_reconciled_event_raises_on_own_ledger
    (env : Env) (i : WebApp.t) (cs : list Condition.t) :
  WebApp.status i = Some {| Status.conditions := Some cs |} ->
  shouldDeploy i = JS.Normal true ->
  deployOk env = true -> writeEventOk env 0 = true -> writeEventOk env 1 = false ->
  fst (run env i) = JS.Throw (JS.TypeError "observedGeneration")
  /\ ledger (snd (run env i)) =
       cs ++ [ Pending (Meta.generation (WebApp.metadata i)) (now env 0);
               Ready (Meta.generation (WebApp.metadata i)) (now env 1) ]
  /\ cluster (effects (snd (run env i))) =
       [ patchOf i (cs ++ [Pending (Meta.generation (WebApp.metadata i)) (now env 0)])
           (patchStatusOk env 0);
         eventOf i "Pending" true;
         DeployCall true;
         patchOf i
           (cs ++ [ Pending (Meta.generation (WebApp.metadata i)) (now env 0);
                    Ready (Meta.generation (WebApp.metadata i)) (now env 1) ])
           (patchStatusOk env 1);
         eventOf i "Reconciled" false ].
Proof.
  intros Hst Hg Hd He0 He1.
  destruct i as [m sp st]. simpl in Hst. subst st.
  run_once. start_run Hg. repeat next_call; intros ->;
    unfold ledger, patchOf, eventOf; cbn; rewrite <- ?app_assoc; repeat split.
Qed.

Lemma X18_lost_reconciled_event_raises_on_own_ledger_witness :
  fst (run lostReconciledEvent Examples.readyAtOne)
  = JS.Throw (JS.TypeError "observedGeneration")
  /\ ledger (snd (run lostReconciledEvent Examples.readyAtOne))
     = [Examples.readyCondition; Examples.pendingAtTwo; Examples.readyAtTwo].
Proof.
  destruct (X18_lost_reconciled_event_raises_on_own_ledger lostReconciledEvent
              Examples.readyAtOne [Examples.readyCondition])
    as (H1 & H2 & _); try reflexivity.
  split; [exact H1 | exact H2].
Defined.

(** The stored ledger after a successful cycle whose patches were applied. *)
Lemma succeeded_persisted env i :
  shouldDeploy i = JS.Normal true ->
  deployOk env = true -> writeEventOk env 0 = true -> writeEventOk env 1 = true ->
  patchStatusOk env 0 = true -> patchStatusOk env 1 = true ->
  persisted (WebApp.status i) (effects (snd (run env i)))
  = Some {| Status.conditions :=
              Some (ledger0 i
                    ++ [ pendingCondition (Meta.generation (WebApp.metadata i)) (now env 0);
                         readyCondition (Meta.generation (WebApp.metadata i)) (now env 1) ]) |}.
Proof.
  intros Hg Hd He0 He1 Hp0 Hp1. destruct i as [m sp [[[cs|]]|]].
  - start_run Hg. repeat next_call. unfold persisted. cbn. rewrite <- app_assoc. reflexivity.
  - rewrite shouldDeploy_no_conditions in Hg by reflexivity. discriminate Hg.
  - start_run Hg. repeat next_call. reflexivity.
Qed.

(** X19: a new generation reopens the guard.  After a successful cycle
    whose two status patches were applied, an invocation on the stored
    instance with another generation deploys again, and a successful
    second cycle leaves a ledger that extends the original one by Pending
    and Ready of the first generation, then Pending and Ready of the
    second. *)
Theorem X19_new_generation_runs_a_new_cycle (env1 env2 : Env) (i i2 : WebApp.t) :
  shouldDeploy i = JS.Normal true ->
  deployOk env1 = true -> writeEventOk env1 0 = true -> writeEventOk env1 1 = true ->
  patchStatusOk env1 0 = true -> patchStatusOk env1 1 = true ->
  WebApp.status i2 = persisted (WebApp.status i) (effects (snd (run env1 i))) ->
  Meta.generation (WebApp.metadata i2) <> Meta.generation (WebApp.metadata i) ->
  deployOk env2 = true -> writeEventOk env2 0 = true -> writeEventOk env2 1 = true ->
  fst (run env2 i2) = JS.Normal tt
  /\ ledger (snd (run env2 i2)) =
       ledger0 i
       ++ [ Pending (Meta.generation (WebApp.metadata i)) (now env1 0);
            Ready (Meta.generation (WebApp.metadata i)) (now env1 1);
            Pending (Meta.generation (WebApp.metadata i2)) (now env2 0);
            Ready (Meta.generation (WebApp.metadata i2)) (now env2 1) ].
Proof.
  intros Hg Hd He0 He1 Hp0 Hp1 Hst Hgen Hd2 He02 He12.
  rewrite (succeeded_persisted env1 i Hg Hd He0 He1 Hp0 Hp1) in Hst.
  assert (Hg2 : shouldDeploy i2 = JS.Normal true).
  { rewrite (shouldDeploy_last i2 _
               (readyCondition (Meta.generation (WebApp.metadata i)) (now env1 1)) Hst).
    - simpl. f_equal. rewrite andb_true_r. apply negb_true_iff, not_true_iff_false.
      rewrite strictEq_spec. exact Hgen.
    - change [?a; ?b] with ([a] ++ [b]). rewrite app_assoc. apply last_snoc. }
  destruct (run_success env2 i2 Hg2 Hd2 He02 He12) as (Hr & Hl & _).
  split; [exact Hr|]. rewrite Hl.
  unfold ledger0 at 1, ledger, initial. simpl. rewrite Hst.
  rewrite <- app_assoc. reflexivity.
Qed.

Lemma X19_new_generation_runs_a_new_cycle_witness :
  fst (run Examples.calm readyAtTwoThenThree) = JS.Normal tt
  /\ ledger (snd (run Examples.calm readyAtTwoThenThree)) =
       [ Examples.readyCondition;
         Pending (Some 2) 1700000000000; Ready (Some 2) 1700000000001;
         Pending (Some 3) 1700000000000; Ready (Some 3) 1700000000001 ].
Proof.
  apply (X19_new_generation_runs_a_new_cycle Examples.calm Examples.calm
           Examples.readyAtOne readyAtTwoThenThree);
    first [reflexivity | discriminate].
Defined.

(** X20: the generator is called at most once per invocation, and never
    before the Pending condition was sent to the store and the "Pending"
    event was written: every trace with a deployment starts with that
    patch and that event, in this order. *)
Theorem X20_deploy_once_and_only_after_pending (env : Env) (i : WebApp.t) :
  (List.length (List.filter isDeploy (effects (snd (run env i)))) <= 1)%nat
  /\ (forall ok, In (DeployCall ok) (effects (snd (run env i))) ->
      ok = deployOk env
      /\ exists p0 rest,
           cluster (effects (snd (run env i)))
           = patchOf i (ledger0 i ++ [Pending (Meta.generation (WebApp.metadata i)) (now env 0)])
               p0
             :: eventOf i "Pending" true :: DeployCall ok :: rest).
Proof.
  run_once.
  destruct (shouldDeploy i) as [[|]|e] eqn:Hg; destruct i as [m sp [[[cs|]]|]];
    start_run Hg; repeat next_call; intros ->;
    unfold ledger0, ledger, patchOf, eventOf, failedObservedGeneration; cbn;
    (split; [lia|]);
    intros ok Hin;
    repeat (destruct Hin as [Hin|Hin]; [try discriminate Hin|]);
    try contradiction;
    injection Hin as <-; (split; [congruence | eauto]).
Qed.

End ReconcileMore.
